(** * RackLink protocol utilities: framing, escaping, checksum, decoder and
    response simulator.

    Shallow embedding of [utils/protocolUtils.ts] (with the enums of
    [types.ts]).  The numbers that the module handles are integers and are
    modelled by [Z], the 32-bit conversion of the bitwise operators being
    written out; arrays are lists; strings are [string] (a character
    outside the ASCII range is not a hex digit and would be stripped by
    [hexToBytes] like any other); [undefined] read from an array is
    [None]; a [null] result is [None]. *)

From Stdlib Require Import ZArith String Ascii Bool Lia.
From Stdlib Require Import DecimalString HexadecimalString.
From Stdlib Require Import List Permutation.
Import ListNotations.
Open Scope Z_scope.

(* ------------------------------------------------------------------ *)
(** ** JavaScript primitives used by the module *)

Module JS.

(** ToInt32: the operand conversion of the bitwise operators. *)
Definition toInt32 (x : Z) : Z := (x + 2 ^ 31) mod 2 ^ 32 - 2 ^ 31.

(** [a & b] *)
Definition band (a b : Z) : Z := Z.land (toInt32 a) (toInt32 b).

(** [~a] *)
Definition bnot (a : Z) : Z := Z.lnot (toInt32 a).

(** [n.toString(10)], also what a template literal does to a number. *)
Definition toString10 (n : Z) : string :=
  DecimalString.NilEmpty.string_of_int (Z.to_int n).

(** [n.toString(16)]: lower-case digits, a leading minus sign for
    negative numbers. *)
Definition toString16 (n : Z) : string :=
  HexadecimalString.NilEmpty.string_of_int (Z.to_hex_int n).

(** [s.padStart(n, '0')] *)
Definition padStart0 (n : nat) (s : string) : string :=
  (String.concat "" (repeat "0" (n - String.length s)) ++ s)%string.

Definition upperChar (c : ascii) : ascii :=
  let n := nat_of_ascii c in
  if ((97 <=? n) && (n <=? 122))%nat then ascii_of_nat (n - 32) else c.

(** [s.toUpperCase()] on the ASCII range. *)
Fixpoint toUpperCase (s : string) : string :=
  match s with
  | EmptyString => EmptyString
  | String c r => String (upperChar c) (toUpperCase r)
  end.

(** The character class [[0-9a-fA-F]]. *)
Definition isHexDigit (c : ascii) : bool :=
  let n := nat_of_ascii c in
  (((48 <=? n) && (n <=? 57)) || ((65 <=? n) && (n <=? 70))
   || ((97 <=? n) && (n <=? 102)))%nat.

Definition hexDigitValue (c : ascii) : Z :=
  let n := Z.of_nat (nat_of_ascii c) in
  if (48 <=? n) && (n <=? 57) then n - 48
  else if (65 <=? n) && (n <=? 70) then n - 55
  else n - 87.

Fixpoint parseHexDigits (s : string) (acc : Z) : Z :=
  match s with
  | EmptyString => acc
  | String c r =>
      if isHexDigit c then parseHexDigits r (16 * acc + hexDigitValue c)
      else acc
  end.

(** [parseInt(s, 16)] on a string that starts with a hex digit: the
    digits up to the first character that is not one.  [hexToBytes]
    only ever passes one or two hex digits (the NaN of a string without
    a leading digit cannot arise there). *)
Definition parseInt16 (s : string) : Z := parseHexDigits s 0.

(** [s.replace(/[^0-9a-fA-F]/g, '')] *)
Fixpoint stripNonHex (s : string) : string :=
  match s with
  | EmptyString => EmptyString
  | String c r =>
      if isHexDigit c then String c (stripNonHex r) else stripNonHex r
  end.

(** [a.slice(start, end)] with the clamping of the language. *)
Definition slice {A : Type} (l : list A) (start finish : Z) : list A :=
  let len := Z.of_nat (length l) in
  let k := if start <? 0 then Z.max (len + start) 0 else Z.min start len in
  let e := if finish <? 0 then Z.max (len + finish) 0 else Z.min finish len in
  firstn (Z.to_nat (e - k)) (skipn (Z.to_nat k) l).

(** [a.includes(x)] on numbers. *)
Definition includes (l : list Z) (x : Z) : bool := existsb (Z.eqb x) l.

(** [v || d] where [v] is an array read: [undefined] and [0] are falsy. *)
Definition orDefault (v : option Z) (d : Z) : Z :=
  match v with
  | Some x => if x =? 0 then d else x
  | None => d
  end.

(** [Array.from(str).map(char => char.charCodeAt(0))] *)
Fixpoint charCodes (s : string) : list Z :=
  match s with
  | EmptyString => []
  | String c r => Z.of_nat (nat_of_ascii c) :: charCodes r
  end.

End JS.

(* ------------------------------------------------------------------ *)
(** ** types.ts *)

Module CommandCode.
Definition PING := 0x01.
Definition LOGIN := 0x02.
Definition NACK := 0x10.
Definition POWER_OUTLETS := 0x20.
Definition OUTLET_NAME := 0x21.
Definition OUTLET_COUNT := 0x22.
Definition ENERGY_MGMT := 0x23.
Definition DRY_CONTACTS := 0x30.
Definition CONTACT_NAME := 0x31.
Definition CONTACT_COUNT := 0x32.
Definition SEQUENCE := 0x36.
Definition EPO := 0x37.
Definition LOG_ALERTS := 0x40.
Definition STATUS_CHANGE := 0x41.
Definition SENSORS_START := 0x50.
Definition SENSORS_END := 0x61.
Definition THRESHOLDS_START := 0x70.
Definition THRESHOLDS_END := 0x77.
Definition READ_LOG := 0x80.
Definition LOG_COUNT := 0x81.
Definition CLEAR_LOG := 0x82.
Definition PRODUCT_PART := 0x90.
Definition PRODUCT_RATING := 0x91.
Definition PRODUCT_SURGE := 0x93.
Definition PRODUCT_IP := 0x94.
Definition PRODUCT_MAC := 0x95.

(** The members in declaration order. *)
Definition commandMembers : list (string * Z) :=
  [ ("PING", PING); ("LOGIN", LOGIN); ("NACK", NACK);
    ("POWER_OUTLETS", POWER_OUTLETS); ("OUTLET_NAME", OUTLET_NAME);
    ("OUTLET_COUNT", OUTLET_COUNT); ("ENERGY_MGMT", ENERGY_MGMT);
    ("DRY_CONTACTS", DRY_CONTACTS); ("CONTACT_NAME", CONTACT_NAME);
    ("CONTACT_COUNT", CONTACT_COUNT); ("SEQUENCE", SEQUENCE);
    ("EPO", EPO); ("LOG_ALERTS", LOG_ALERTS);
    ("STATUS_CHANGE", STATUS_CHANGE); ("SENSORS_START", SENSORS_START);
    ("SENSORS_END", SENSORS_END); ("THRESHOLDS_START", THRESHOLDS_START);
    ("THRESHOLDS_END", THRESHOLDS_END); ("READ_LOG", READ_LOG);
    ("LOG_COUNT", LOG_COUNT); ("CLEAR_LOG", CLEAR_LOG);
    ("PRODUCT_PART", PRODUCT_PART); ("PRODUCT_RATING", PRODUCT_RATING);
    ("PRODUCT_SURGE", PRODUCT_SURGE); ("PRODUCT_IP", PRODUCT_IP);
    ("PRODUCT_MAC", PRODUCT_MAC) ]%string.
End CommandCode.

Module SubCommand.
Definition SET := 0x01.
Definition GET := 0x02.
Definition RESPONSE := 0x10.
Definition STATUS_UPDATE := 0x12.
Definition LOG_UPDATE := 0x30.

Definition subMembers : list (string * Z) :=
  [ ("SET", SET); ("GET", GET); ("RESPONSE", RESPONSE);
    ("STATUS_UPDATE", STATUS_UPDATE); ("LOG_UPDATE", LOG_UPDATE) ]%string.
End SubCommand.

(** The reverse mapping of a numeric enum: [Enum[code]] is the name of the
    member with that value, [undefined] when there is none. *)
Fixpoint enumName (members : list (string * Z)) (code : Z) : option string :=
  match members with
  | [] => None
  | (name, v) :: rest =>
      match enumName rest code with
      | Some later => Some later
      | None => if v =? code then Some name else None
      end
  end.

(** [Enum[code] || fallback]: the names are non-empty, hence truthy. *)
Definition enumNameOr (members : list (string * Z)) (code : Z)
    (fallback : string) : string :=
  match enumName members code with
  | Some name => name
  | None => fallback
  end.

Record PacketBreakdown := mkBreakdown {
  label : string;
  hex : string;
  description : string;
  isEscaped : option bool
}.

(* ------------------------------------------------------------------ *)
(** ** utils/protocolUtils.ts *)

Module PROTECTED_VALUES.
Definition HEADER := 0xFE.
Definition TAIL := 0xFF.
Definition ESCAPE := 0xFD.
(** [Object.values(PROTECTED_VALUES)] *)
Definition values : list Z := [HEADER; TAIL; ESCAPE].
End PROTECTED_VALUES.

Definition calculateChecksum (header length : Z) (data : list Z) : Z :=
  let sum := fold_left (fun sum byte => sum + byte) data (header + length) in
  JS.band sum 0x7F.

Fixpoint escapeData (data : list Z) : list Z :=
  match data with
  | [] => []
  | byte :: rest =>
      if JS.includes PROTECTED_VALUES.values byte
      then PROTECTED_VALUES.ESCAPE :: JS.band (JS.bnot byte) 0xFF
             :: escapeData rest
      else byte :: escapeData rest
  end.

Record Unescaped := mkUnescaped {
  unescaped : list Z;
  breakdown : list bool
}.

Definition pushUnescaped (b : Z) (e : bool) (r : Unescaped) : Unescaped :=
  mkUnescaped (b :: unescaped r) (e :: breakdown r).

(** The scan of [unescapeData] from position [i], on the remaining input
    [data[i..]]: [i + 1 < data.length] says that a next element exists. *)
Fixpoint unescapeData (data : list Z) : Unescaped :=
  match data with
  | [] => mkUnescaped [] []
  | cur :: rest =>
      match rest with
      | next :: rest' =>
          if cur =? PROTECTED_VALUES.ESCAPE
          then pushUnescaped (JS.band (JS.bnot next) 0xFF) true
                 (unescapeData rest')
          else pushUnescaped cur false (unescapeData rest)
      | [] => pushUnescaped cur false (unescapeData rest)
      end
  end.

(** The same loop with its index and its two accumulators, as it is
    written; [fuel] bounds the number of iterations. *)
Fixpoint unescapeLoop (fuel : nat) (data : list Z) (i : nat)
    (out : list Z) (flags : list bool) : Unescaped :=
  match fuel with
  | O => mkUnescaped out flags
  | S fuel' =>
      if (i <? length data)%nat then
        match nth_error data i with
        | Some cur =>
            if (cur =? PROTECTED_VALUES.ESCAPE) && (i + 1 <? length data)%nat
            then unescapeLoop fuel' data (i + 1 + 1)
                   (out ++ [JS.band (JS.bnot (nth (i + 1) data 0)) 0xFF])
                   (flags ++ [true])
            else unescapeLoop fuel' data (i + 1) (out ++ [cur])
                   (flags ++ [false])
        | None => mkUnescaped out flags
        end
      else mkUnescaped out flags
  end.

(** The body of the loop of [hexToBytes]: [cleanHex.substr(i, 2)] for
    [i = 0, 2, 4, ...], the last one being a single character when the
    length is odd. *)
Fixpoint hexChunks (cleanHex : string) : list Z :=
  match cleanHex with
  | EmptyString => []
  | String c1 EmptyString => [JS.parseInt16 (String c1 EmptyString)]
  | String c1 (String c2 rest) =>
      JS.parseInt16 (String c1 (String c2 EmptyString)) :: hexChunks rest
  end.

Definition hexToBytes (hex : string) : list Z :=
  let cleanHex := JS.stripNonHex hex in
  hexChunks cleanHex.

Definition byteToHex (b : Z) : string :=
  JS.toUpperCase (JS.padStart0 2 (JS.toString16 b)).

Definition bytesToHex (bytes : list Z) : string :=
  String.concat " " (map byteToHex bytes).

Definition asciiToBytes (str : string) : list Z := JS.charCodes str.

(** The array [[header, length, ...escapedEnvelope, checksum, tail]]. *)
Definition packetBytes (dataEnvelope : list Z) : list Z :=
  let header := PROTECTED_VALUES.HEADER in
  let tail := PROTECTED_VALUES.TAIL in
  let length := Z.of_nat (List.length dataEnvelope) in
  let checksum := calculateChecksum header length dataEnvelope in
  let escapedEnvelope := escapeData dataEnvelope in
  [header; length] ++ escapedEnvelope ++ [checksum; tail].

Definition buildPacket (dataEnvelope : list Z) : string :=
  bytesToHex (packetBytes dataEnvelope).

(** The envelope of a request as both [simulateResponse] and
    [parsePacket] read it: the bytes between the length byte and the
    checksum/tail pair, unescaped. *)
Definition envelopeWithEscapes (bytes : list Z) : list Z :=
  JS.slice bytes 2 (Z.of_nat (length bytes) - 2).

Definition simulateResponse (requestHex : string) : option string :=
  let bytes := hexToBytes requestHex in
  if (length bytes <? 5)%nat then None else
  let unescaped := unescaped (unescapeData (envelopeWithEscapes bytes)) in
  if (length unescaped <? 3)%nat then None else
  let cmd := nth 1 unescaped 0 in
  let sub := nth 2 unescaped 0 in
  let responseEnvelope := [0x00; cmd; SubCommand.RESPONSE] in
  if cmd =? CommandCode.LOGIN then
    Some (buildPacket (responseEnvelope ++ [0x01]))
  else if cmd =? CommandCode.OUTLET_NAME then
    if sub =? SubCommand.GET then
      Some (buildPacket
              ((responseEnvelope ++ [JS.orDefault (nth_error unescaped 3) 0x01])
               ++ asciiToBytes "Outlet 1"))
    else Some (buildPacket responseEnvelope)
  else if cmd =? CommandCode.POWER_OUTLETS then
    Some (buildPacket
            ((responseEnvelope ++ [JS.orDefault (nth_error unescaped 3) 0x01])
             ++ [0x01]))
  else if cmd =? CommandCode.PING then
    Some (buildPacket [0x00; CommandCode.PING; SubCommand.RESPONSE])
  else None.

(** The entries of [parsePacket], one definition per [result.push]. *)
Definition headerEntry (b : Z) : PacketBreakdown :=
  mkBreakdown "Header" (bytesToHex [b])
    (if b =? PROTECTED_VALUES.HEADER then "Valid Start Character (0xFE)"
     else "INVALID Header") None.

Definition lengthEntry (rawLength : Z) : PacketBreakdown :=
  mkBreakdown "Length" (bytesToHex [rawLength])
    ("Payload Data Length: " ++ JS.toString10 rawLength ++ " bytes") None.

Definition envelopeEntry (withEscapes unescaped : list Z) : PacketBreakdown :=
  mkBreakdown "Data Envelope" (bytesToHex withEscapes)
    ("Unescaped Payload: [" ++ bytesToHex unescaped ++ "]") None.

Definition destinationEntry (dest : Z) : PacketBreakdown :=
  mkBreakdown "Destination" (bytesToHex [dest])
    (if dest =? 0 then "Broadcast/Device"
     else "Target " ++ JS.toString10 dest) None.

Definition commandEntry (cmd : Z) : PacketBreakdown :=
  let cmdName := enumNameOr CommandCode.commandMembers cmd "Unknown Command" in
  mkBreakdown "Command" (bytesToHex [cmd])
    (cmdName ++ " (0x" ++ JS.padStart0 2 (JS.toString16 cmd) ++ ")") None.

Definition subcommandEntry (sub : Z) : PacketBreakdown :=
  let subName := enumNameOr SubCommand.subMembers sub "Param/Data" in
  mkBreakdown "Subcommand/Param" (bytesToHex [sub]) subName None.

Definition checksumEntry (checksum expectedChecksum : Z) : PacketBreakdown :=
  mkBreakdown "Checksum" (bytesToHex [checksum])
    (if checksum =? expectedChecksum then "Valid Checksum"
     else "Invalid! Expected 0x"
          ++ JS.toUpperCase (JS.toString16 expectedChecksum)) None.

Definition tailEntry (tail : Z) : PacketBreakdown :=
  mkBreakdown "Tail" (bytesToHex [tail])
    (if tail =? PROTECTED_VALUES.TAIL then "Valid End Character (0xFF)"
     else "INVALID Tail") None.

(** The entries pushed inside [if (unescaped.length >= 2)]. *)
Definition envelopeFields (unescaped : list Z) : list PacketBreakdown :=
  if (2 <=? length unescaped)%nat then
    let dest := nth 0 unescaped 0 in
    let cmd := nth 1 unescaped 0 in
    let sub := nth_error unescaped 2 in
    [destinationEntry dest; commandEntry cmd]
    ++ match sub with
       | Some s => [subcommandEntry s]
       | None => []
       end
  else [].

(** [parsePacket] has no statement that can throw: every array read below
    the length guard is in range, and the only read that may be
    [undefined] ([unescaped[2]]) is tested before use.  The indices
    [bytes[k]] are read with [nth] under that guard. *)
Definition parsePacket (hex : string) : list PacketBreakdown :=
  let bytes := hexToBytes hex in
  if (length bytes <? 5)%nat then [] else
  let rawLength := nth 1 bytes 0 in
  let withEscapes := envelopeWithEscapes bytes in
  let unescaped := unescaped (unescapeData withEscapes) in
  let checksum := nth (length bytes - 2) bytes 0 in
  let expectedChecksum := calculateChecksum (nth 0 bytes 0) rawLength unescaped in
  let tail := nth (length bytes - 1) bytes 0 in
  [headerEntry (nth 0 bytes 0); lengthEntry rawLength;
   envelopeEntry withEscapes unescaped]
  ++ envelopeFields unescaped
  ++ [checksumEntry checksum expectedChecksum; tailEntry tail].

(** The entry of a breakdown with a given label, if any. *)
Definition entryLabelled (l : string) (r : list PacketBreakdown)
    : option PacketBreakdown :=
  find (fun e => String.eqb (label e) l) r.


(* ------------------------------------------------------------------ *)
(** ** Vocabulary of the statements *)

(** A byte: an integer of the range [[0,255]]. *)
Definition isByte (b : Z) : Prop := 0 <= b <= 255.

Definition sumBytes (data : list Z) : Z := fold_right Z.add 0 data.

(** Two scan results one after the other. *)
Definition appendUnescaped (r1 r2 : Unescaped) : Unescaped :=
  mkUnescaped (unescaped r1 ++ unescaped r2) (breakdown r1 ++ breakdown r2).

(** A text made of hex digits only. *)
Fixpoint allHex (s : string) : bool :=
  match s with
  | EmptyString => true
  | String c r => JS.isHexDigit c && allHex r
  end.

(** The unescaped envelope that [simulateResponse] and [parsePacket] take
    from a request text. *)
Definition requestEnvelope (requestHex : string) : list Z :=
  unescaped (unescapeData (envelopeWithEscapes (hexToBytes requestHex))).

(** What [hexToBytes] needs of the two characters [bytesToHex] writes for
    a byte: both are hex digits and they read back as the byte. *)
Definition byteHexOk (b : Z) : bool :=
  match byteToHex b with
  | String c1 (String c2 EmptyString) =>
      JS.isHexDigit c1 && JS.isHexDigit c2
      && (JS.parseInt16 (String c1 (String c2 EmptyString)) =? b)
  | _ => false
  end.

(* ------------------------------------------------------------------ *)
(** ** The callers: components/PacketBuilder.tsx, App.tsx,
    components/ScriptGenerator.tsx *)

(** A string used as a condition: the empty string is falsy. *)
Definition truthy (s : string) : bool :=
  match s with
  | EmptyString => false
  | String _ _ => true
  end.

(** The effect of [PacketBuilder] that computes the envelope from the
    selected command, subcommand and the parameter text.  The loop over
    [cleanParams] is the loop of [hexToBytes]. *)
Definition builderEnvelope (command subCommand : Z) (params : string)
    : list Z :=
  if command =? CommandCode.LOGIN then
    let loginStr := if truthy params then params else "user|password"%string in
    [0x00; command; subCommand] ++ asciiToBytes loginStr
  else if truthy params then
    let cleanParams := JS.stripNonHex params in
    let paramBytes := hexChunks cleanParams in
    [0x00; command; subCommand] ++ paramBytes
  else [0x00; command; subCommand].

(** [setGeneratedHex(buildPacket(dataEnvelope))] *)
Definition generatedHex (command subCommand : Z) (params : string) : string :=
  buildPacket (builderEnvelope command subCommand params).

(** The summary that [addLog] of [App] computes for a logged text:
    [CommandCode[unescaped[1]] || 'Unknown'], where [unescaped[1]] may be
    [undefined] (there is no length guard in [addLog]). *)
Definition logSummary (hex : string) : string :=
  let bytes := hexToBytes hex in
  let unescaped :=
    unescaped (unescapeData (JS.slice bytes 2 (Z.of_nat (length bytes) - 2))) in
  match nth_error unescaped 1 with
  | Some cmd => enumNameOr CommandCode.commandMembers cmd "Unknown"
  | None => "Unknown"%string
  end.

Inductive Direction := TX | RX.

(** The entries that [handleSendPacket] appends to the activity log, with
    the fields that are a function of the sent text (direction, hex,
    summary; the random id and the timestamp are left out): the TX entry,
    then, when the simulator returns a truthy text, the RX entry. *)
Definition handleSendPacketLog (hex : string)
    : list (Direction * string * string) :=
  (TX, hex, logSummary hex)
  :: match simulateResponse hex with
     | Some responseHex =>
         if truthy responseHex
         then [(RX, responseHex, logSummary responseHex)]
         else []
     | None => []
     end.

(** [s.split(' ')]: the pieces between the spaces, empty pieces included;
    the empty string gives one empty piece. *)
Fixpoint splitSpace (s : string) : list string :=
  match s with
  | EmptyString => [EmptyString]
  | String c r =>
      if Ascii.eqb c " " then EmptyString :: splitSpace r
      else match splitSpace r with
           | piece :: pieces => String c piece :: pieces
           | [] => [String c EmptyString]
           end
  end.

(** [hex.split(' ').map(h => `0x${h}`).join(', ')] of [ScriptGenerator]. *)
Definition formattedHexArray (hex : string) : string :=
  String.concat ", " (map (fun h => ("0x" ++ h)%string) (splitSpace hex)).

(* ------------------------------------------------------------------ *)
(** * Properties *)

(** ** Bit operations *)

Section Bitwise.

Lemma toInt32_small (x : Z) : - 2 ^ 31 <= x < 2 ^ 31 -> JS.toInt32 x = x.
Proof.
  unfold JS.toInt32.
  change (2 ^ 32) with 4294967296. change (2 ^ 31) with 2147483648.
  intros Hx. rewrite Z.mod_small by lia. lia.
Qed.

Lemma toInt32_mod128 (x : Z) : JS.toInt32 x mod 128 = x mod 128.
Proof.
  unfold JS.toInt32.
  change (2 ^ 32) with 4294967296. change (2 ^ 31) with 2147483648.
  rewrite (Z.mod_eq (x + 2147483648) 4294967296) by lia.
  replace (x + 2147483648
           - 4294967296 * ((x + 2147483648) / 4294967296) - 2147483648)
    with (x + (- (33554432 * ((x + 2147483648) / 4294967296))) * 128)
    by lia.
  apply Z.mod_add. lia.
Qed.

Lemma band_0x7F (x : Z) : JS.band x 0x7F = x mod 128.
Proof.
  unfold JS.band.
  rewrite (toInt32_small 0x7F) by (change (2 ^ 31) with 2147483648; lia).
  change 0x7F with (Z.ones 7).
  rewrite Z.land_ones by lia.
  change (2 ^ 7) with 128. apply toInt32_mod128.
Qed.

Lemma band_bnot_0xFF (b : Z) : isByte b -> JS.band (JS.bnot b) 0xFF = 255 - b.
Proof.
  unfold isByte, JS.band, JS.bnot. intros Hb.
  rewrite (toInt32_small b) by (change (2 ^ 31) with 2147483648; lia).
  rewrite Z.lnot_eq_pred_opp.
  rewrite (toInt32_small (- b - 1)) by (change (2 ^ 31) with 2147483648; lia).
  rewrite (toInt32_small 0xFF) by (change (2 ^ 31) with 2147483648; lia).
  rewrite (Z.land_ones (- b - 1) 8 ltac:(lia) : Z.land (- b - 1) 0xFF = _).
  change (2 ^ 8) with 256.
  replace (- b - 1) with (255 - b + (-1) * 256) by lia.
  rewrite Z.mod_add by lia. apply Z.mod_small. lia.
Qed.

End Bitwise.

(** ** Checksum *)

Lemma fold_left_add_sum (data : list Z) (start : Z) :
  fold_left (fun sum byte => sum + byte) data start = start + sumBytes data.
Proof.
  revert start. induction data as [|b data IH]; intros start; simpl.
  - lia.
  - rewrite IH. lia.
Qed.

Lemma calculateChecksum_mod (header length : Z) (data : list Z) :
  calculateChecksum header length data
  = (header + length + sumBytes data) mod 128.
Proof.
  unfold calculateChecksum. rewrite band_0x7F, fold_left_add_sum. reflexivity.
Qed.

Lemma calculateChecksum_range (header length : Z) (data : list Z) :
  0 <= calculateChecksum header length data <= 127.
Proof.
  rewrite calculateChecksum_mod.
  pose proof (Z.mod_pos_bound (header + length + sumBytes data) 128). lia.
Qed.

(** C2: for a header byte, a length byte and envelope bytes of [[0,255]],
    the checksum is (header + length + sum of the envelope bytes) mod 128,
    and it lies in [[0,127]]. *)
Theorem C2_checksum_mod128 (header length : Z) (data : list Z) :
  isByte header -> isByte length -> Forall isByte data ->
  calculateChecksum header length data
  = (header + length + sumBytes data) mod 128
  /\ 0 <= calculateChecksum header length data <= 127.
Proof.
  intros _ _ _. split.
  - apply calculateChecksum_mod.
  - apply calculateChecksum_range.
Qed.

Lemma C2_checksum_mod128_witness :
  calculateChecksum 0xFE 0x03 [0x00; 0x21; 0x02]
  = (0xFE + 0x03 + sumBytes [0x00; 0x21; 0x02]) mod 128
  /\ 0 <= calculateChecksum 0xFE 0x03 [0x00; 0x21; 0x02] <= 127.
Proof.
  apply (C2_checksum_mod128 0xFE 0x03 [0x00; 0x21; 0x02]).
  - unfold isByte; lia.
  - unfold isByte; lia.
  - repeat constructor; unfold isByte; lia.
Defined.

(** ** Escaping *)

Lemma includes_protected (b : Z) :
  JS.includes PROTECTED_VALUES.values b = true ->
  b = 0xFE \/ b = 0xFF \/ b = 0xFD.
Proof.
  unfold JS.includes, PROTECTED_VALUES.values; simpl.
  unfold PROTECTED_VALUES.HEADER, PROTECTED_VALUES.TAIL, PROTECTED_VALUES.ESCAPE.
  intros H.
  destruct (Z.eqb_spec b 254); [now left|].
  destruct (Z.eqb_spec b 255); [now right; left|].
  destruct (Z.eqb_spec b 253); [now right; right|].
  discriminate H.
Qed.

Lemma includes_unprotected (b : Z) :
  JS.includes PROTECTED_VALUES.values b = false ->
  b <> PROTECTED_VALUES.ESCAPE.
Proof.
  unfold JS.includes, PROTECTED_VALUES.values; simpl.
  intros H ->. discriminate H.
Qed.

Lemma unescapeData_literal (b : Z) (rest : list Z) :
  b <> PROTECTED_VALUES.ESCAPE ->
  unescapeData (b :: rest) = pushUnescaped b false (unescapeData rest).
Proof.
  intros Hb. destruct rest as [|next rest']; simpl.
  - reflexivity.
  - destruct (Z.eqb_spec b PROTECTED_VALUES.ESCAPE); [contradiction|reflexivity].
Qed.

Lemma unescapeData_pair (next : Z) (rest : list Z) :
  unescapeData (PROTECTED_VALUES.ESCAPE :: next :: rest)
  = pushUnescaped (JS.band (JS.bnot next) 0xFF) true (unescapeData rest).
Proof. reflexivity. Qed.

Lemma unescape_escape (data : list Z) :
  unescaped (unescapeData (escapeData data)) = data.
Proof.
  induction data as [|b data IH]; [reflexivity|].
  cbn [escapeData].
  destruct (JS.includes PROTECTED_VALUES.values b) eqn:Hp.
  - rewrite unescapeData_pair. simpl. rewrite IH.
    destruct (includes_protected b Hp) as [-> | [-> | ->]]; reflexivity.
  - rewrite unescapeData_literal by (now apply includes_unprotected).
    simpl. now rewrite IH.
Qed.

(** C3: for every byte [b], unescaping the escaped form of [[b]] gives
    [[b]] back; a protected byte is escaped to 0xFD followed by its one's
    complement, and that pair unescapes to the byte. *)
Theorem C3_unescape_escape_byte (b : Z) :
  isByte b ->
  unescaped (unescapeData (escapeData [b])) = [b]
  /\ (b = 0xFE \/ b = 0xFF \/ b = 0xFD ->
      escapeData [b] = [0xFD; 255 - b]
      /\ unescaped (unescapeData [0xFD; 255 - b]) = [b]).
Proof.
  intros _. split.
  - apply unescape_escape.
  - intros [-> | [-> | ->]]; split; reflexivity.
Qed.

Lemma C3_unescape_escape_byte_witness :
  unescaped (unescapeData (escapeData [0xFE])) = [0xFE]
  /\ (0xFE = 0xFE \/ 0xFE = 0xFF \/ 0xFE = 0xFD ->
      escapeData [0xFE] = [0xFD; 255 - 0xFE]
      /\ unescaped (unescapeData [0xFD; 255 - 0xFE]) = [0xFE]).
Proof.
  apply (C3_unescape_escape_byte 0xFE). unfold isByte; lia.
Defined.

(** ** The scan of [unescapeData] *)

(** The scan advances by one or by two positions: induction follows it. *)
Lemma scan_ind (P : list Z -> Prop) :
  P [] ->
  (forall a, P [a]) ->
  (forall a b l, P l -> P (b :: l) -> P (a :: b :: l)) ->
  forall l, P l.
Proof.
  intros Hnil Hone Hstep l.
  assert (H : P l /\ forall a, P (a :: l)).
  { induction l as [|b l [IH1 IH2]].
    - split; [exact Hnil | exact Hone].
    - split; [apply IH2 | intros a; apply Hstep; [exact IH1 | apply IH2]]. }
  exact (proj1 H).
Qed.

Lemma appendUnescaped_push (b : Z) (e : bool) (r1 r2 : Unescaped) :
  appendUnescaped (pushUnescaped b e r1) r2
  = pushUnescaped b e (appendUnescaped r1 r2).
Proof. reflexivity. Qed.

Lemma appendUnescaped_nil_l (r : Unescaped) :
  appendUnescaped (mkUnescaped [] []) r = r.
Proof. destruct r; reflexivity. Qed.

(** A prefix that does not end in the escape byte is scanned on its own:
    the scan of the whole input passes exactly through its end. *)
Lemma unescapeData_app (q r : list Z) :
  last q 0 <> PROTECTED_VALUES.ESCAPE ->
  unescapeData (q ++ r) = appendUnescaped (unescapeData q) (unescapeData r).
Proof.
  revert r. induction q as [| a | a b q IH1 IH2] using scan_ind; intros r Hlast.
  - simpl app. now rewrite appendUnescaped_nil_l.
  - simpl in Hlast. simpl app.
    rewrite (unescapeData_literal a r Hlast).
    rewrite (unescapeData_literal a [] Hlast).
    rewrite appendUnescaped_push. simpl unescapeData.
    now rewrite appendUnescaped_nil_l.
  - change (last (a :: b :: q) 0) with (last (b :: q) 0) in Hlast.
    destruct (Z.eq_dec a PROTECTED_VALUES.ESCAPE) as [-> | Ha].
    + change ((PROTECTED_VALUES.ESCAPE :: b :: q) ++ r)
        with (PROTECTED_VALUES.ESCAPE :: b :: (q ++ r)).
      rewrite !unescapeData_pair, appendUnescaped_push.
      f_equal. apply IH1.
      destruct q as [|c q]; [discriminate | exact Hlast].
    + change ((a :: b :: q) ++ r) with (a :: ((b :: q) ++ r)).
      rewrite (unescapeData_literal a _ Ha).
      rewrite (unescapeData_literal a (b :: q) Ha).
      rewrite appendUnescaped_push. f_equal. now apply IH2.
Qed.

(** A run of escape bytes is consumed in pairs, each pair giving 0x02. *)
Lemma unescapeData_even_run (j : nat) :
  unescapeData (repeat PROTECTED_VALUES.ESCAPE (2 * j))
  = mkUnescaped (repeat 0x02 j) (repeat true j).
Proof.
  induction j as [|j IH]; [reflexivity|].
  replace (2 * S j)%nat with (S (S (2 * j))) by lia.
  cbn [repeat]. rewrite unescapeData_pair, IH. reflexivity.
Qed.

Lemma unescapeData_odd_run (j : nat) :
  unescapeData (repeat PROTECTED_VALUES.ESCAPE (2 * j + 1))
  = mkUnescaped (repeat 0x02 j ++ [PROTECTED_VALUES.ESCAPE])
                (repeat true j ++ [false]).
Proof.
  induction j as [|j IH]; [reflexivity|].
  replace (2 * S j + 1)%nat with (S (S (2 * j + 1))) by lia.
  cbn [repeat]. rewrite unescapeData_pair, IH. reflexivity.
Qed.

(** C4, as the code has it: an input that ends in a run of an odd number
    of 0xFD bytes (in particular a last 0xFD whose predecessor is not 0xFD,
    and the input [[0xFD]] alone) has its final 0xFD emitted literally,
    unflagged; when the run is even the final 0xFD is the operand of the
    escape byte before it and 0x02 is emitted for the pair. *)
Theorem C4_trailing_escape_literal (q : list Z) (j : nat) :
  last q 0 <> 0xFD ->
  unescapeData [0xFD] = mkUnescaped [0xFD] [false]
  /\ unescapeData (q ++ [0xFD])
     = appendUnescaped (unescapeData q) (mkUnescaped [0xFD] [false])
  /\ unescapeData (q ++ repeat 0xFD (2 * j + 1))
     = appendUnescaped (unescapeData q)
         (mkUnescaped (repeat 0x02 j ++ [0xFD]) (repeat true j ++ [false]))
  /\ unescapeData (q ++ repeat 0xFD (2 * j))
     = appendUnescaped (unescapeData q)
         (mkUnescaped (repeat 0x02 j) (repeat true j)).
Proof.
  intros Hlast. split; [reflexivity|].
  split; [|split].
  - now rewrite (unescapeData_app q [0xFD] Hlast).
  - rewrite (unescapeData_app q _ Hlast).
    f_equal. apply unescapeData_odd_run.
  - rewrite (unescapeData_app q _ Hlast).
    f_equal. apply unescapeData_even_run.
Qed.

Lemma C4_trailing_escape_literal_witness :
  unescapeData [0xFD] = mkUnescaped [0xFD] [false]
  /\ unescapeData ([0x00; 0xFD; 0x02] ++ [0xFD])
     = appendUnescaped (unescapeData [0x00; 0xFD; 0x02])
         (mkUnescaped [0xFD] [false])
  /\ unescapeData ([0x00; 0xFD; 0x02] ++ repeat 0xFD (2 * 1 + 1))
     = appendUnescaped (unescapeData [0x00; 0xFD; 0x02])
         (mkUnescaped (repeat 0x02 1 ++ [0xFD]) (repeat true 1 ++ [false]))
  /\ unescapeData ([0x00; 0xFD; 0x02] ++ repeat 0xFD (2 * 1))
     = appendUnescaped (unescapeData [0x00; 0xFD; 0x02])
         (mkUnescaped (repeat 0x02 1) (repeat true 1)).
Proof.
  apply (C4_trailing_escape_literal [0x00; 0xFD; 0x02] 1).
  simpl. lia.
Defined.

(** C4 as stated fails: in [[0xFD; 0xFD]] the last byte is 0xFD and nothing
    follows it, yet the output is [[0x02]] and holds no 0xFD. *)
Lemma C4_trailing_escape_counterexample :
  last [0xFD; 0xFD] 0 = 0xFD
  /\ unescaped (unescapeData [0xFD; 0xFD]) = [0x02]
  /\ ~ In 0xFD (unescaped (unescapeData [0xFD; 0xFD])).
Proof.
  split; [reflexivity|]. split; [reflexivity|].
  simpl. intros [H | []]. discriminate H.
Qed.

(** ** The indexed loop and the scan agree *)

Lemma skipn_nth_cons {A : Type} (l : list A) (i : nat) (d : A) :
  (i < length l)%nat -> skipn i l = nth i l d :: skipn (S i) l.
Proof.
  revert i. induction l as [|x l IH]; intros i Hi; simpl in Hi; [lia|].
  destruct i as [|i]; [reflexivity|].
  cbn [skipn nth]. apply IH. lia.
Qed.

Lemma appendUnescaped_snoc (out : list Z) (flags : list bool) (b : Z)
    (e : bool) (r : Unescaped) :
  appendUnescaped (mkUnescaped (out ++ [b]) (flags ++ [e])) r
  = appendUnescaped (mkUnescaped out flags) (pushUnescaped b e r).
Proof.
  unfold appendUnescaped, pushUnescaped; cbn [unescaped breakdown].
  now rewrite <- !app_assoc.
Qed.

Lemma unescapeLoop_scan (fuel : nat) (data : list Z) :
  forall (i : nat) (out : list Z) (flags : list bool),
  (i <= length data)%nat -> (length data - i <= fuel)%nat ->
  unescapeLoop fuel data i out flags
  = appendUnescaped (mkUnescaped out flags) (unescapeData (skipn i data)).
Proof.
  induction fuel as [|fuel IH]; intros i out flags Hi Hfuel.
  - replace i with (length data) by lia.
    rewrite skipn_all. unfold appendUnescaped; cbn.
    now rewrite !app_nil_r.
  - cbn [unescapeLoop].
    destruct (Nat.ltb_spec i (length data)) as [Hlt | Hge].
    + rewrite (nth_error_nth' data 0 Hlt).
      rewrite (skipn_nth_cons data i 0 Hlt).
      destruct (Z.eqb_spec (nth i data 0) PROTECTED_VALUES.ESCAPE) as [Hesc | Hlit].
      * destruct (Nat.ltb_spec (i + 1) (length data)) as [Hnext | Hlast];
          cbn [andb].
        -- rewrite IH by lia. rewrite appendUnescaped_snoc.
           replace (S i) with (i + 1)%nat by lia.
           rewrite (skipn_nth_cons data (i + 1) 0 Hnext).
           rewrite Hesc, unescapeData_pair.
           now replace (S (i + 1)) with (i + 1 + 1)%nat by lia.
        -- rewrite IH by lia. rewrite appendUnescaped_snoc.
           replace (S i) with (i + 1)%nat by lia.
           rewrite (skipn_all2 data) by lia.
           reflexivity.
      * cbn [andb]. rewrite IH by lia. rewrite appendUnescaped_snoc.
        rewrite (unescapeData_literal _ _ Hlit).
        now replace (S i) with (i + 1)%nat by lia.
    + replace i with (length data) by lia.
      rewrite skipn_all. unfold appendUnescaped; cbn.
      now rewrite !app_nil_r.
Qed.

(** The loop of the source, run from index 0 with empty accumulators,
    terminates within [data.length] iterations with the result of the
    scan. *)
Lemma unescapeLoop_unescapeData (data : list Z) :
  unescapeLoop (length data) data 0 [] [] = unescapeData data.
Proof.
  rewrite unescapeLoop_scan by lia.
  cbn [skipn]. apply appendUnescaped_nil_l.
Qed.

(** ** The textual hex form *)

Lemma byteHexOk_all : forallb byteHexOk (map Z.of_nat (seq 0 256)) = true.
Proof. vm_compute. reflexivity. Qed.

Lemma byteToHex_two_digits (b : Z) :
  isByte b ->
  exists c1 c2,
    byteToHex b = String c1 (String c2 EmptyString)
    /\ JS.isHexDigit c1 = true /\ JS.isHexDigit c2 = true
    /\ JS.parseInt16 (String c1 (String c2 EmptyString)) = b.
Proof.
  intros Hb.
  assert (Hin : In b (map Z.of_nat (seq 0 256))).
  { rewrite <- (Z2Nat.id b) by (unfold isByte in Hb; lia).
    apply in_map, in_seq. unfold isByte in Hb. lia. }
  pose proof (proj1 (forallb_forall _ _) byteHexOk_all b Hin) as Hok.
  unfold byteHexOk in Hok.
  destruct (byteToHex b) as [|c1 [|c2 [|c3 s]]]; try discriminate Hok.
  apply andb_prop in Hok. destruct Hok as [Hok Hval].
  apply andb_prop in Hok. destruct Hok as [H1 H2].
  exists c1, c2. repeat split; try assumption.
  now apply Z.eqb_eq.
Qed.

Lemma stripNonHex_app (s1 s2 : string) :
  JS.stripNonHex (s1 ++ s2) = (JS.stripNonHex s1 ++ JS.stripNonHex s2)%string.
Proof.
  induction s1 as [|c s1 IH]; [reflexivity|].
  cbn [String.append JS.stripNonHex].
  destruct (JS.isHexDigit c); cbn [String.append]; now rewrite IH.
Qed.

Lemma hexToBytes_bytesToHex (bytes : list Z) :
  Forall isByte bytes -> hexToBytes (bytesToHex bytes) = bytes.
Proof.
  induction 1 as [|b bytes Hb Hbytes IH]; [reflexivity|].
  destruct (byteToHex_two_digits b Hb) as (c1 & c2 & Hhex & H1 & H2 & Hval).
  unfold bytesToHex. cbn [map String.concat].
  destruct bytes as [|b' bytes].
  - cbn [map]. rewrite Hhex. unfold hexToBytes.
    cbn [JS.stripNonHex]. rewrite H1, H2. cbn [hexChunks].
    now rewrite Hval.
  - cbn [map]. fold (bytesToHex (b' :: bytes)) in *.
    change (map byteToHex (b' :: bytes))
      with (byteToHex b' :: map byteToHex bytes) in IH.
    unfold hexToBytes in *. rewrite Hhex.
    cbn [String.append JS.stripNonHex]. rewrite H1, H2.
    change (JS.isHexDigit " ") with false. cbn iota.
    cbn [hexChunks]. rewrite Hval. f_equal. exact IH.
Qed.

(** ** The frame *)

Lemma escapeData_bytes (data : list Z) :
  Forall isByte data -> Forall isByte (escapeData data).
Proof.
  induction 1 as [|b data Hb Hdata IH]; [constructor|].
  cbn [escapeData].
  destruct (JS.includes PROTECTED_VALUES.values b).
  - constructor; [unfold isByte, PROTECTED_VALUES.ESCAPE; lia|].
    constructor; [|exact IH].
    rewrite band_bnot_0xFF by exact Hb. unfold isByte in *. lia.
  - now constructor.
Qed.

Lemma packetBytes_bytes (dataEnvelope : list Z) :
  Forall isByte dataEnvelope -> (length dataEnvelope <= 255)%nat ->
  Forall isByte (packetBytes dataEnvelope).
Proof.
  intros Hbytes Hlen. unfold packetBytes.
  apply Forall_app. split.
  - repeat constructor; unfold isByte, PROTECTED_VALUES.HEADER; lia.
  - apply Forall_app. split; [now apply escapeData_bytes|].
    constructor.
    + pose proof (calculateChecksum_range PROTECTED_VALUES.HEADER
                    (Z.of_nat (length dataEnvelope)) dataEnvelope).
      unfold isByte. lia.
    + repeat constructor; unfold isByte, PROTECTED_VALUES.TAIL; lia.
Qed.

Lemma envelopeWithEscapes_frame (h l c t : Z) (body : list Z) :
  envelopeWithEscapes ([h; l] ++ body ++ [c; t]) = body.
Proof.
  unfold envelopeWithEscapes, JS.slice.
  rewrite !length_app. cbn [length].
  destruct (Z.ltb_spec 2 0) as [|_]; [lia|].
  destruct (Z.ltb_spec (Z.of_nat (2 + (length body + 2)) - 2) 0) as [|_];
    [lia|].
  rewrite Z.min_l by lia. rewrite Z.min_l by lia.
  replace (Z.to_nat (Z.of_nat (2 + (length body + 2)) - 2 - 2))
    with (length body) by lia.
  change (Z.to_nat 2) with 2%nat. cbn [app skipn].
  rewrite firstn_app, firstn_all, Nat.sub_diag. cbn [firstn].
  apply app_nil_r.
Qed.

Lemma hexToBytes_buildPacket (dataEnvelope : list Z) :
  Forall isByte dataEnvelope -> (length dataEnvelope <= 255)%nat ->
  hexToBytes (buildPacket dataEnvelope) = packetBytes dataEnvelope.
Proof.
  intros Hbytes Hlen. unfold buildPacket.
  apply hexToBytes_bytesToHex. now apply packetBytes_bytes.
Qed.

Lemma envelope_of_buildPacket (dataEnvelope : list Z) :
  Forall isByte dataEnvelope -> (length dataEnvelope <= 255)%nat ->
  envelopeWithEscapes (hexToBytes (buildPacket dataEnvelope))
  = escapeData dataEnvelope.
Proof.
  intros Hbytes Hlen. rewrite hexToBytes_buildPacket by assumption.
  apply envelopeWithEscapes_frame.
Qed.

(** ** The decoder *)

Lemma parsePacket_short (hex : string) :
  (length (hexToBytes hex) < 5)%nat -> parsePacket hex = [].
Proof.
  intros Hlen. unfold parsePacket.
  destruct (Nat.ltb_spec (length (hexToBytes hex)) 5) as [_ | Hge];
    [reflexivity | lia].
Qed.

Lemma parsePacket_long (hex : string) :
  (5 <= length (hexToBytes hex))%nat ->
  parsePacket hex
  = let bytes := hexToBytes hex in
    let unescaped := unescaped (unescapeData (envelopeWithEscapes bytes)) in
    [headerEntry (nth 0 bytes 0); lengthEntry (nth 1 bytes 0);
     envelopeEntry (envelopeWithEscapes bytes) unescaped]
    ++ envelopeFields unescaped
    ++ [checksumEntry (nth (length bytes - 2) bytes 0)
          (calculateChecksum (nth 0 bytes 0) (nth 1 bytes 0) unescaped);
        tailEntry (nth (length bytes - 1) bytes 0)].
Proof.
  intros Hlen. unfold parsePacket.
  destruct (Nat.ltb_spec (length (hexToBytes hex)) 5) as [Hlt | _];
    [lia | reflexivity].
Qed.

Lemma envelopeFields_short (unescaped : list Z) :
  (length unescaped < 2)%nat -> envelopeFields unescaped = [].
Proof.
  intros Hlen. unfold envelopeFields.
  destruct (Nat.leb_spec 2 (length unescaped)); [lia | reflexivity].
Qed.

Lemma envelopeFields_long (dest cmd : Z) (rest : list Z) :
  envelopeFields (dest :: cmd :: rest)
  = [destinationEntry dest; commandEntry cmd]
    ++ match rest with
       | sub :: _ => [subcommandEntry sub]
       | [] => []
       end.
Proof. destruct rest; reflexivity. Qed.

(** Looking an entry up by its label, on the breakdown of a frame of at
    least five bytes. *)
Ltac lookup_entry :=
  unfold entryLabelled;
  cbn [app find label headerEntry lengthEntry envelopeEntry destinationEntry
       commandEntry subcommandEntry checksumEntry tailEntry];
  repeat match goal with
  | |- context [String.eqb ?a ?b] =>
      let v := eval vm_compute in (String.eqb a b) in
      change (String.eqb a b) with v; cbn iota
  end.

(** C5: a raw input that parses to fewer than five bytes decodes to the
    empty breakdown; [parsePacket] is a total function and returns it. *)
Theorem C5_insufficient_data (hex : string) :
  (length (hexToBytes hex) < 5)%nat -> parsePacket hex = [].
Proof. apply parsePacket_short. Qed.

Lemma C5_insufficient_data_witness : parsePacket "FE 00 7E FF" = [].
Proof.
  apply (C5_insufficient_data "FE 00 7E FF").
  vm_compute. lia.
Defined.

Lemma escapeData_nonempty (data : list Z) :
  data <> [] -> escapeData data <> [].
Proof.
  destruct data as [|b data]; [congruence|]. intros _. cbn [escapeData].
  destruct (JS.includes PROTECTED_VALUES.values b); discriminate.
Qed.

Lemma packetBytes_length (dataEnvelope : list Z) :
  length (packetBytes dataEnvelope)
  = (4 + length (escapeData dataEnvelope))%nat.
Proof.
  unfold packetBytes. rewrite !length_app. cbn [length]. lia.
Qed.

Lemma dataEnvelope_entry (hex : string) :
  (5 <= length (hexToBytes hex))%nat ->
  entryLabelled "Data Envelope" (parsePacket hex)
  = Some (envelopeEntry (envelopeWithEscapes (hexToBytes hex))
            (unescaped (unescapeData (envelopeWithEscapes (hexToBytes hex))))).
Proof.
  intros Hlen. rewrite (parsePacket_long hex Hlen). cbv zeta.
  now lookup_entry.
Qed.

(** C1, as the code has it: for an envelope of at most 255 bytes,
    unescaping the region of the frame between the length byte and the
    checksum/tail pair gives the envelope back, and the hex text of a byte
    sequence reads back as that sequence; when the envelope is not empty
    the decoder's Data Envelope entry shows the escaped region and reports
    the envelope as its unescaped payload.  The frame of the empty
    envelope has four bytes and decodes to the empty breakdown. *)
Theorem C1_round_trip (envelope : list Z) :
  Forall isByte envelope -> (length envelope <= 255)%nat ->
  unescaped (unescapeData (envelopeWithEscapes (hexToBytes (buildPacket envelope))))
  = envelope
  /\ hexToBytes (bytesToHex envelope) = envelope
  /\ (envelope <> [] ->
      exists e,
        entryLabelled "Data Envelope" (parsePacket (buildPacket envelope))
        = Some e
        /\ hex e = bytesToHex (escapeData envelope)
        /\ description e
           = ("Unescaped Payload: [" ++ bytesToHex envelope ++ "]")%string)
  /\ (envelope = [] -> parsePacket (buildPacket envelope) = []).
Proof.
  intros Hbytes Hlen.
  pose proof (envelope_of_buildPacket envelope Hbytes Hlen) as Henv.
  split; [|split; [|split]].
  - rewrite Henv. apply unescape_escape.
  - now apply hexToBytes_bytesToHex.
  - intros Hne. eexists. split.
    + apply dataEnvelope_entry.
      rewrite hexToBytes_buildPacket, packetBytes_length by assumption.
      pose proof (escapeData_nonempty envelope Hne).
      destruct (escapeData envelope); [congruence | cbn [length]; lia].
    + rewrite Henv, unescape_escape. split; reflexivity.
  - intros ->. reflexivity.
Qed.

Lemma C1_round_trip_witness :
  unescaped (unescapeData (envelopeWithEscapes
                             (hexToBytes (buildPacket [0x00; 0xFD; 0xFE; 0xFF; 0x07]))))
  = [0x00; 0xFD; 0xFE; 0xFF; 0x07]
  /\ hexToBytes (bytesToHex [0x00; 0xFD; 0xFE; 0xFF; 0x07])
     = [0x00; 0xFD; 0xFE; 0xFF; 0x07]
  /\ ([0x00; 0xFD; 0xFE; 0xFF; 0x07] <> [] ->
      exists e,
        entryLabelled "Data Envelope"
          (parsePacket (buildPacket [0x00; 0xFD; 0xFE; 0xFF; 0x07]))
        = Some e
        /\ hex e = bytesToHex (escapeData [0x00; 0xFD; 0xFE; 0xFF; 0x07])
        /\ description e
           = ("Unescaped Payload: ["
              ++ bytesToHex [0x00; 0xFD; 0xFE; 0xFF; 0x07] ++ "]")%string)
  /\ ([0x00; 0xFD; 0xFE; 0xFF; 0x07] = [] ->
      parsePacket (buildPacket [0x00; 0xFD; 0xFE; 0xFF; 0x07]) = []).
Proof.
  apply (C1_round_trip [0x00; 0xFD; 0xFE; 0xFF; 0x07]).
  - repeat constructor; unfold isByte; lia.
  - simpl. lia.
Defined.

(** C1 as stated fails on the empty envelope: its frame is "FE 00 7E FF",
    four bytes, and the decoder returns no entry at all for it. *)
Lemma C1_round_trip_counterexample :
  Forall isByte [] /\ (length (@nil Z) <= 255)%nat
  /\ buildPacket [] = "FE 00 7E FF"%string
  /\ parsePacket (buildPacket []) = []
  /\ entryLabelled "Data Envelope" (parsePacket (buildPacket [])) = None.
Proof.
  split; [constructor|]. split; [simpl; lia|].
  repeat split; reflexivity.
Qed.

(** The breakdown of a frame of at least five bytes, entry by entry. *)
Lemma parsePacket_entries (hex : string) :
  (5 <= length (hexToBytes hex))%nat ->
  let bytes := hexToBytes hex in
  let u := unescaped (unescapeData (envelopeWithEscapes bytes)) in
  let r := parsePacket hex in
  entryLabelled "Header" r = Some (headerEntry (nth 0 bytes 0))
  /\ entryLabelled "Length" r = Some (lengthEntry (nth 1 bytes 0))
  /\ entryLabelled "Data Envelope" r
     = Some (envelopeEntry (envelopeWithEscapes bytes) u)
  /\ entryLabelled "Checksum" r
     = Some (checksumEntry (nth (length bytes - 2) bytes 0)
               (calculateChecksum (nth 0 bytes 0) (nth 1 bytes 0) u))
  /\ entryLabelled "Tail" r = Some (tailEntry (nth (length bytes - 1) bytes 0)).
Proof.
  intros Hlen bytes u r. subst r. rewrite (parsePacket_long hex Hlen).
  cbv zeta. fold bytes. fold u.
  destruct u as [|dest [|cmd [|sub rest]]];
    rewrite ?envelopeFields_long, ?envelopeFields_short by (cbn [length]; lia);
    repeat split; now lookup_entry.
Qed.

(** C6, as the code has it: on a raw input of at least five bytes the
    Destination and Command entries are produced when the unescaped
    envelope has at least two bytes (0x00 described as broadcast/device,
    another value as a target; the Subcommand/Param entry only with a
    third byte); an envelope of fewer than two unescaped bytes gives none
    of the three.  Header, Length, Data Envelope, Checksum and Tail are
    always produced. *)
Theorem C6_envelope_field_entries (hex : string) :
  (5 <= length (hexToBytes hex))%nat ->
  let bytes := hexToBytes hex in
  let u := unescaped (unescapeData (envelopeWithEscapes bytes)) in
  let r := parsePacket hex in
  (forall dest cmd rest, u = dest :: cmd :: rest ->
     entryLabelled "Destination" r = Some (destinationEntry dest)
     /\ description (destinationEntry dest)
        = (if (dest =? 0)%Z then "Broadcast/Device"
           else "Target " ++ JS.toString10 dest)%string
     /\ entryLabelled "Command" r = Some (commandEntry cmd)
     /\ entryLabelled "Subcommand/Param" r
        = option_map subcommandEntry (hd_error rest))
  /\ ((length u < 2)%nat ->
      entryLabelled "Destination" r = None
      /\ entryLabelled "Command" r = None
      /\ entryLabelled "Subcommand/Param" r = None)
  /\ entryLabelled "Header" r = Some (headerEntry (nth 0 bytes 0))
  /\ entryLabelled "Length" r = Some (lengthEntry (nth 1 bytes 0))
  /\ entryLabelled "Data Envelope" r
     = Some (envelopeEntry (envelopeWithEscapes bytes) u)
  /\ entryLabelled "Checksum" r
     = Some (checksumEntry (nth (length bytes - 2) bytes 0)
               (calculateChecksum (nth 0 bytes 0) (nth 1 bytes 0) u))
  /\ entryLabelled "Tail" r = Some (tailEntry (nth (length bytes - 1) bytes 0)).
Proof.
  intros Hlen bytes u r.
  split; [|split; [|exact (parsePacket_entries hex Hlen)]].
  - intros dest cmd rest Hu. subst r. rewrite (parsePacket_long hex Hlen).
    cbv zeta. fold bytes. fold u. rewrite Hu, envelopeFields_long.
    destruct rest as [|sub rest]; repeat split; now lookup_entry.
  - intros Hshort. subst r. rewrite (parsePacket_long hex Hlen).
    cbv zeta. fold bytes. fold u.
    rewrite (envelopeFields_short u Hshort).
    repeat split; now lookup_entry.
Qed.

Lemma C6_envelope_field_entries_witness :
  (5 <= length (hexToBytes "FE 03 00 21 02 24 FF"))%nat
  /\ entryLabelled "Destination" (parsePacket "FE 03 00 21 02 24 FF")
     = Some (destinationEntry 0x00)
  /\ entryLabelled "Command" (parsePacket "FE 03 00 21 02 24 FF")
     = Some (commandEntry 0x21)
  /\ entryLabelled "Subcommand/Param" (parsePacket "FE 03 00 21 02 24 FF")
     = Some (subcommandEntry 0x02).
Proof.
  assert (Hlen : (5 <= length (hexToBytes "FE 03 00 21 02 24 FF"))%nat)
    by (vm_compute; lia).
  split; [exact Hlen|].
  destruct (C6_envelope_field_entries "FE 03 00 21 02 24 FF" Hlen)
    as [Hfields _].
  destruct (Hfields 0x00 0x21 [0x02] eq_refl) as (Hd & _ & Hc & Hs).
  repeat split; assumption.
Defined.

(** C6 as stated fails: "FE 01 00 7F FF" has five bytes and an envelope of
    one unescaped byte; its breakdown has neither a Destination nor a
    Command entry. *)
Lemma C6_envelope_field_entries_counterexample :
  length (hexToBytes "FE 01 00 7F FF") = 5%nat
  /\ map label (parsePacket "FE 01 00 7F FF")
     = ["Header"; "Length"; "Data Envelope"; "Checksum"; "Tail"]%string
  /\ entryLabelled "Destination" (parsePacket "FE 01 00 7F FF") = None
  /\ entryLabelled "Command" (parsePacket "FE 01 00 7F FF") = None.
Proof. repeat split; reflexivity. Qed.

(** ** Reading hex text *)

Lemma string_pair_ind (P : string -> Prop) :
  P EmptyString ->
  (forall c, P (String c EmptyString)) ->
  (forall c1 c2 s, P s -> P (String c1 (String c2 s))) ->
  forall s, P s.
Proof.
  intros Hnil Hone Hstep s.
  assert (H : P s /\ forall c, P (String c s)).
  { induction s as [|c s [IH1 IH2]].
    - split; [exact Hnil | exact Hone].
    - split; [apply IH2 | intros c0; apply Hstep; exact IH1]. }
  exact (proj1 H).
Qed.

Lemma hexChunks_app (s1 s2 : string) :
  Nat.even (String.length s1) = true ->
  hexChunks (s1 ++ s2) = hexChunks s1 ++ hexChunks s2.
Proof.
  induction s1 as [| c | c1 c2 s1 IH] using string_pair_ind; intros Heven.
  - reflexivity.
  - discriminate Heven.
  - cbn [String.append hexChunks app]. f_equal. apply IH. exact Heven.
Qed.

Lemma allHex_stripNonHex (s : string) : allHex (JS.stripNonHex s) = true.
Proof.
  induction s as [|c s IH]; [reflexivity|].
  cbn [JS.stripNonHex]. destruct (JS.isHexDigit c) eqn:Hc; [|exact IH].
  cbn [allHex]. now rewrite Hc.
Qed.

Lemma allHex_app (s1 s2 : string) :
  allHex (s1 ++ s2) = allHex s1 && allHex s2.
Proof.
  induction s1 as [|c s1 IH]; [reflexivity|].
  cbn [String.append allHex]. rewrite IH. apply andb_assoc.
Qed.

Lemma stripNonHex_allHex (s : string) :
  allHex s = true -> JS.stripNonHex s = s.
Proof.
  induction s as [|c s IH]; [reflexivity|].
  cbn [allHex JS.stripNonHex]. intros H. apply andb_prop in H.
  destruct H as [Hc Hs]. rewrite Hc. now rewrite IH.
Qed.

Lemma hexToBytes_junk (s1 s2 : string) (c : ascii) :
  JS.isHexDigit c = false ->
  hexToBytes (s1 ++ String c s2) = hexToBytes (s1 ++ s2).
Proof.
  intros Hc. unfold hexToBytes. rewrite !stripNonHex_app.
  cbn [JS.stripNonHex]. now rewrite Hc.
Qed.

Lemma hexChunks_length (s : string) :
  length (hexChunks s) = Nat.div2 (S (String.length s)).
Proof.
  induction s as [| c | c1 c2 s IH] using string_pair_ind;
    [reflexivity | reflexivity |].
  cbn [hexChunks length String.length Nat.div2] in *. now rewrite IH.
Qed.

(** C7, as the code has it: characters that are not hex digits are
    dropped before the text is read, wherever they stand; when the
    remaining digits are odd in number the last digit is not dropped but
    read as a byte of its own, so that "FE0" gives the two bytes 0xFE,
    0x00: the result has one byte per started pair of digits. *)
Theorem C7_hex_text_parsing (hex clean : string) (c : ascii) :
  JS.stripNonHex hex = (clean ++ String c EmptyString)%string ->
  Nat.even (String.length clean) = true ->
  hexToBytes hex = hexToBytes clean ++ [JS.hexDigitValue c]
  /\ length (hexToBytes hex) = S (Nat.div2 (String.length clean))
  /\ (forall s1 s2 junk, JS.isHexDigit junk = false ->
        hexToBytes (s1 ++ String junk s2) = hexToBytes (s1 ++ s2))
  /\ hexToBytes "FE0" = [0xFE; 0x00].
Proof.
  intros Hclean Heven.
  pose proof (allHex_stripNonHex hex) as Hall.
  rewrite Hclean, allHex_app in Hall. apply andb_prop in Hall.
  destruct Hall as [Hall Hc]. cbn [allHex] in Hc.
  rewrite andb_true_r in Hc.
  assert (Hbytes : hexToBytes hex = hexToBytes clean ++ [JS.hexDigitValue c]).
  { unfold hexToBytes. rewrite Hclean, (stripNonHex_allHex clean Hall).
    rewrite (hexChunks_app _ _ Heven). f_equal.
    cbn [hexChunks]. unfold JS.parseInt16. cbn [JS.parseHexDigits].
    rewrite Hc. reflexivity. }
  split; [exact Hbytes|]. split; [|split].
  - rewrite Hbytes, length_app. unfold hexToBytes.
    rewrite (stripNonHex_allHex clean Hall), hexChunks_length.
    cbn [length]. clear - Heven.
    induction clean as [| c | c1 c2 s IH] using string_pair_ind.
    + reflexivity.
    + discriminate Heven.
    + cbn [String.length Nat.div2] in *. specialize (IH Heven). lia.
  - intros s1 s2 junk. apply hexToBytes_junk.
  - reflexivity.
Qed.

Lemma C7_hex_text_parsing_witness :
  hexToBytes "fe 0" = hexToBytes "fe" ++ [JS.hexDigitValue "0"]
  /\ length (hexToBytes "fe 0") = S (Nat.div2 (String.length "fe"))
  /\ (forall s1 s2 junk, JS.isHexDigit junk = false ->
        hexToBytes (s1 ++ String junk s2) = hexToBytes (s1 ++ s2))
  /\ hexToBytes "FE0" = [0xFE; 0x00].
Proof.
  apply (C7_hex_text_parsing "fe 0" "fe" "0"); reflexivity.
Defined.

(** C7 as stated fails: the cleaned text "FE0" is read as two bytes, not
    as the single byte 0xFE. *)
Lemma C7_hex_text_parsing_counterexample :
  JS.stripNonHex "FE0" = "FE0"%string
  /\ hexToBytes "FE0" = [0xFE; 0x00]
  /\ hexToBytes "FE0" <> [0xFE].
Proof.
  split; [reflexivity|]. split; [reflexivity|].
  vm_compute. discriminate.
Qed.

(** ** The response simulator *)

Lemma envelopeWithEscapes_short (bytes : list Z) :
  (length bytes < 5)%nat -> envelopeWithEscapes bytes = [].
Proof.
  destruct bytes as [|b0 [|b1 [|b2 [|b3 [|b4 bytes]]]]]; cbn [length];
    intros Hlen; try reflexivity.
  lia.
Qed.

Lemma requestEnvelope_frame_length (requestHex : string) :
  requestEnvelope requestHex <> [] ->
  (5 <= length (hexToBytes requestHex))%nat.
Proof.
  intros Hne.
  destruct (Nat.ltb_spec (length (hexToBytes requestHex)) 5) as [Hlt | Hge];
    [|exact Hge].
  exfalso. apply Hne. unfold requestEnvelope.
  now rewrite (envelopeWithEscapes_short _ Hlt).
Qed.

(** The switch of [simulateResponse] on a request whose unescaped envelope
    has its three leading bytes. *)
Lemma simulateResponse_dispatch (requestHex : string) (dest cmd sub : Z)
    (params : list Z) :
  requestEnvelope requestHex = dest :: cmd :: sub :: params ->
  simulateResponse requestHex
  = if cmd =? CommandCode.LOGIN then
      Some (buildPacket [0x00; cmd; SubCommand.RESPONSE; 0x01])
    else if cmd =? CommandCode.OUTLET_NAME then
      if sub =? SubCommand.GET then
        Some (buildPacket
                ([0x00; cmd; SubCommand.RESPONSE;
                  JS.orDefault (hd_error params) 0x01]
                 ++ asciiToBytes "Outlet 1"))
      else Some (buildPacket [0x00; cmd; SubCommand.RESPONSE])
    else if cmd =? CommandCode.POWER_OUTLETS then
      Some (buildPacket
              [0x00; cmd; SubCommand.RESPONSE;
               JS.orDefault (hd_error params) 0x01; 0x01])
    else if cmd =? CommandCode.PING then
      Some (buildPacket [0x00; CommandCode.PING; SubCommand.RESPONSE])
    else None.
Proof.
  intros Henv.
  assert (Hlen : (5 <= length (hexToBytes requestHex))%nat).
  { apply requestEnvelope_frame_length. rewrite Henv. discriminate. }
  unfold simulateResponse.
  destruct (Nat.ltb_spec (length (hexToBytes requestHex)) 5) as [Hlt | _];
    [lia|].
  fold (requestEnvelope requestHex). rewrite Henv.
  cbn [length Nat.ltb Nat.leb nth nth_error].
  destruct params; reflexivity.
Qed.

(** C8, as the code has it: an OUTLET_NAME request with subcommand GET is
    answered with the frame of [0x00, OUTLET_NAME, RESPONSE, index or 1,
    ...ASCII "Outlet 1"]; an OUTLET_NAME request with another subcommand
    is answered too, with the frame of the bare envelope
    [0x00, OUTLET_NAME, RESPONSE]; a command outside LOGIN, OUTLET_NAME,
    POWER_OUTLETS and PING gets no response. *)
Theorem C8_outlet_name_response (requestHex : string) (dest cmd sub : Z)
    (params : list Z) :
  requestEnvelope requestHex = dest :: cmd :: sub :: params ->
  (cmd = CommandCode.OUTLET_NAME -> sub = SubCommand.GET ->
   simulateResponse requestHex
   = Some (buildPacket
             ([0x00; CommandCode.OUTLET_NAME; SubCommand.RESPONSE;
               JS.orDefault (hd_error params) 0x01]
              ++ asciiToBytes "Outlet 1")))
  /\ (cmd = CommandCode.OUTLET_NAME -> sub <> SubCommand.GET ->
      simulateResponse requestHex
      = Some (buildPacket
                [0x00; CommandCode.OUTLET_NAME; SubCommand.RESPONSE]))
  /\ (cmd <> CommandCode.LOGIN -> cmd <> CommandCode.OUTLET_NAME ->
      cmd <> CommandCode.POWER_OUTLETS -> cmd <> CommandCode.PING ->
      simulateResponse requestHex = None).
Proof.
  intros Henv. rewrite (simulateResponse_dispatch _ _ _ _ _ Henv).
  split; [|split].
  - intros -> ->. reflexivity.
  - intros -> Hsub.
    change (CommandCode.OUTLET_NAME =? CommandCode.LOGIN) with false.
    change (CommandCode.OUTLET_NAME =? CommandCode.OUTLET_NAME) with true.
    cbn iota. destruct (Z.eqb_spec sub SubCommand.GET); [contradiction|].
    reflexivity.
  - intros H1 H2 H3 H4.
    destruct (Z.eqb_spec cmd CommandCode.LOGIN); [contradiction|].
    destruct (Z.eqb_spec cmd CommandCode.OUTLET_NAME); [contradiction|].
    destruct (Z.eqb_spec cmd CommandCode.POWER_OUTLETS); [contradiction|].
    destruct (Z.eqb_spec cmd CommandCode.PING); [contradiction|].
    reflexivity.
Qed.

Lemma C8_outlet_name_response_witness :
  requestEnvelope "FE 04 00 21 02 03 28 FF" = [0x00; 0x21; 0x02; 0x03]
  /\ simulateResponse "FE 04 00 21 02 03 28 FF"
     = Some (buildPacket
               ([0x00; CommandCode.OUTLET_NAME; SubCommand.RESPONSE; 0x03]
                ++ asciiToBytes "Outlet 1")).
Proof.
  assert (Henv : requestEnvelope "FE 04 00 21 02 03 28 FF"
                 = [0x00; 0x21; 0x02; 0x03]) by reflexivity.
  split; [exact Henv|].
  exact (proj1 (C8_outlet_name_response _ _ _ _ _ Henv) eq_refl eq_refl).
Defined.

(** C8 as stated fails: the OUTLET_NAME request with subcommand SET (0x01)
    gets a response, the frame of [0x00, 0x21, 0x10]. *)
Lemma C8_outlet_name_response_counterexample :
  requestEnvelope "FE 03 00 21 01 23 FF" = [0x00; 0x21; 0x01]
  /\ simulateResponse "FE 03 00 21 01 23 FF" = Some "FE 03 00 21 10 32 FF"%string
  /\ simulateResponse "FE 03 00 21 01 23 FF" <> None.
Proof.
  split; [reflexivity|]. split; [reflexivity|].
  vm_compute. discriminate.
Qed.

(** C9: two LOGIN requests with at least three unescaped envelope bytes get
    the same response, the frame of [0x00, 0x02, 0x10, 0x01], whatever
    their subcommand and credential bytes (and their destination) are. *)
Theorem C9_login_noninterference (request1 request2 : string)
    (dest1 sub1 dest2 sub2 : Z) (credentials1 credentials2 : list Z) :
  requestEnvelope request1
  = dest1 :: CommandCode.LOGIN :: sub1 :: credentials1 ->
  requestEnvelope request2
  = dest2 :: CommandCode.LOGIN :: sub2 :: credentials2 ->
  simulateResponse request1 = simulateResponse request2
  /\ simulateResponse request1 = Some (buildPacket [0x00; 0x02; 0x10; 0x01]).
Proof.
  intros Henv1 Henv2.
  rewrite (simulateResponse_dispatch _ _ _ _ _ Henv1).
  rewrite (simulateResponse_dispatch _ _ _ _ _ Henv2).
  split; reflexivity.
Qed.

Lemma C9_login_noninterference_witness :
  simulateResponse (buildPacket ([0x00; 0x02; 0x01] ++ asciiToBytes "user|password"))
  = simulateResponse (buildPacket ([0x00; 0x02; 0x02] ++ asciiToBytes "root|x"))
  /\ simulateResponse
       (buildPacket ([0x00; 0x02; 0x01] ++ asciiToBytes "user|password"))
     = Some (buildPacket [0x00; 0x02; 0x10; 0x01]).
Proof.
  apply (C9_login_noninterference
           (buildPacket ([0x00; 0x02; 0x01] ++ asciiToBytes "user|password"))
           (buildPacket ([0x00; 0x02; 0x02] ++ asciiToBytes "root|x"))
           0x00 0x01 0x00 0x02
           (asciiToBytes "user|password") (asciiToBytes "root|x"));
    vm_compute; reflexivity.
Defined.

(** C10: for a POWER_OUTLETS request, and for an OUTLET_NAME request with
    subcommand GET, a fourth envelope byte equal to 0x00 gives the response
    of the request without a fourth byte: the index in the response is the
    default 0x01 in both. *)
Theorem C10_zero_index_fallback (requestAbsent requestZero : string)
    (cmd sub destA destZ : Z) (rest : list Z) :
  cmd = CommandCode.POWER_OUTLETS
  \/ (cmd = CommandCode.OUTLET_NAME /\ sub = SubCommand.GET) ->
  requestEnvelope requestAbsent = [destA; cmd; sub] ->
  requestEnvelope requestZero = destZ :: cmd :: sub :: 0x00 :: rest ->
  simulateResponse requestZero = simulateResponse requestAbsent
  /\ simulateResponse requestZero
     = Some (buildPacket
               ([0x00; cmd; SubCommand.RESPONSE; 0x01]
                ++ (if cmd =? CommandCode.POWER_OUTLETS then [0x01]
                    else asciiToBytes "Outlet 1"))).
Proof.
  intros Hcmd HenvA HenvZ.
  rewrite (simulateResponse_dispatch _ _ _ _ _ HenvA).
  rewrite (simulateResponse_dispatch _ _ _ _ _ HenvZ).
  destruct Hcmd as [-> | [-> ->]]; split; reflexivity.
Qed.

Lemma C10_zero_index_fallback_witness :
  simulateResponse "FE 04 00 20 02 00 24 FF"
  = simulateResponse "FE 03 00 20 02 23 FF"
  /\ simulateResponse "FE 04 00 20 02 00 24 FF"
     = Some (buildPacket [0x00; 0x20; 0x10; 0x01; 0x01]).
Proof.
  apply (C10_zero_index_fallback
           "FE 03 00 20 02 23 FF" "FE 04 00 20 02 00 24 FF"
           0x20 0x02 0x00 0x00 []).
  - left; reflexivity.
  - reflexivity.
  - reflexivity.
Defined.

(** ** The scenarios of the protocol notes, run on the model *)

Example scenario_outlet_name_get :
  map (fun e => (label e, description e)) (parsePacket "FE 03 00 21 02 24 FF")
  = [ ("Header", "Valid Start Character (0xFE)");
      ("Length", "Payload Data Length: 3 bytes");
      ("Data Envelope", "Unescaped Payload: [00 21 02]");
      ("Destination", "Broadcast/Device");
      ("Command", "OUTLET_NAME (0x21)");
      ("Subcommand/Param", "GET");
      ("Checksum", "Valid Checksum");
      ("Tail", "Valid End Character (0xFF)") ]%string.
Proof. reflexivity. Qed.

Example scenario_power_outlets_get :
  map (fun e => (label e, hex e)) (parsePacket "FE 04 00 20 02 01 25 FF")
  = [ ("Header", "FE"); ("Length", "04"); ("Data Envelope", "00 20 02 01");
      ("Destination", "00"); ("Command", "20"); ("Subcommand/Param", "02");
      ("Checksum", "25"); ("Tail", "FF") ]%string
  /\ map description (parsePacket "FE 04 00 20 02 01 25 FF")
     = [ "Valid Start Character (0xFE)"; "Payload Data Length: 4 bytes";
         "Unescaped Payload: [00 20 02 01]"; "Broadcast/Device";
         "POWER_OUTLETS (0x20)"; "GET"; "Valid Checksum";
         "Valid End Character (0xFF)" ]%string.
Proof. split; reflexivity. Qed.

Example scenario_ping :
  simulateResponse (buildPacket [0x00; 0x01; 0x02])
  = Some "FE 03 00 01 10 12 FF"%string
  /\ requestEnvelope "FE 03 00 01 10 12 FF"
     = [0x00; CommandCode.PING; SubCommand.RESPONSE].
Proof. split; reflexivity. Qed.

Example scenario_unknown_command :
  simulateResponse (buildPacket [0x00; 0x99; 0x02]) = None.
Proof. reflexivity. Qed.

Example scenario_escaped_frame :
  buildPacket [0xFD; 0xFE; 0xFF; 0x07]
  = "FE 04 FD 02 FD 01 FD 00 07 03 FF"%string
  /\ requestEnvelope "FE 04 FD 02 FD 01 FD 00 07 03 FF"
     = [0xFD; 0xFE; 0xFF; 0x07].
Proof. split; reflexivity. Qed.

Example scenario_invalid_header :
  map (fun e => (label e, description e)) (parsePacket "AA 03 00 21 02 24 FF")
  = [ ("Header", "INVALID Header");
      ("Length", "Payload Data Length: 3 bytes");
      ("Data Envelope", "Unescaped Payload: [00 21 02]");
      ("Destination", "Broadcast/Device");
      ("Command", "OUTLET_NAME (0x21)");
      ("Subcommand/Param", "GET");
      ("Checksum", "Invalid! Expected 0x50");
      ("Tail", "Valid End Character (0xFF)") ]%string.
Proof. reflexivity. Qed.


(* ------------------------------------------------------------------ *)
(** * Further properties of the codec *)

(** ** Escaped payloads *)

Lemma escapeData_cons_cases (b : Z) (data : list Z) :
  (JS.includes PROTECTED_VALUES.values b = true
   /\ (b = 0xFE \/ b = 0xFF \/ b = 0xFD)
   /\ escapeData (b :: data) = 0xFD :: (255 - b) :: escapeData data)
  \/ (JS.includes PROTECTED_VALUES.values b = false
      /\ b <> 0xFE /\ b <> 0xFF /\ b <> 0xFD
      /\ escapeData (b :: data) = b :: escapeData data).
Proof.
  cbn [escapeData].
  destruct (JS.includes PROTECTED_VALUES.values b) eqn:Hp.
  - left. split; [reflexivity|].
    pose proof (includes_protected b Hp) as Hb. split; [exact Hb|].
    destruct Hb as [-> | [-> | ->]]; reflexivity.
  - right. split; [reflexivity|].
    repeat split; try reflexivity; intros ->; discriminate Hp.
Qed.

Lemma escapeData_wire (data : list Z) :
  ~ In 0xFE (escapeData data)
  /\ ~ In 0xFF (escapeData data)
  /\ last (escapeData data) 0 <> 0xFD.
Proof.
  induction data as [|b data (IHh & IHt & IHl)].
  - cbn. repeat split; intros H; try contradiction; discriminate H.
  - destruct (escapeData_cons_cases b data)
      as [(_ & Hb & ->) | (_ & Hh & Ht & He & ->)].
    + repeat split.
      * intros [H | [H | H]]; [discriminate H | | contradiction].
        destruct Hb as [-> | [-> | ->]]; discriminate H.
      * intros [H | [H | H]]; [discriminate H | | contradiction].
        destruct Hb as [-> | [-> | ->]]; discriminate H.
      * destruct (escapeData data) as [|e rest] eqn:Hesc.
        -- cbn. destruct Hb as [-> | [-> | ->]]; discriminate.
        -- change (last (0xFD :: 255 - b :: e :: rest) 0)
             with (last (e :: rest) 0). exact IHl.
    + repeat split.
      * intros [H | H]; [congruence | contradiction].
      * intros [H | H]; [congruence | contradiction].
      * destruct (escapeData data) as [|e rest] eqn:Hesc.
        -- cbn. exact He.
        -- change (last (b :: e :: rest) 0) with (last (e :: rest) 0).
           exact IHl.
Qed.

(** X1: The escaped payload never holds the header byte 0xFE or the tail byte
    0xFF, whatever the payload is, and it never ends in the escape byte
    0xFD: the byte written after an escape byte is 0x00, 0x01 or 0x02. *)
Theorem escapeData_no_frame_delimiter (data : list Z) :
  ~ In 0xFE (escapeData data)
  /\ ~ In 0xFF (escapeData data)
  /\ last (escapeData data) 0 <> 0xFD.
Proof. exact (escapeData_wire data). Qed.

(** X2: Escaping adds one byte per protected byte of the payload: the escaped
    length is the payload length plus the number of bytes equal to 0xFE,
    0xFF or 0xFD, hence between the length and twice the length. *)
Theorem escapeData_length (data : list Z) :
  length (escapeData data)
  = (length data
     + length (filter (JS.includes PROTECTED_VALUES.values) data))%nat
  /\ (length data <= length (escapeData data) <= 2 * length data)%nat.
Proof.
  induction data as [|b data [IHeq IHle]]; [cbn; lia|].
  cbn [escapeData filter].
  destruct (JS.includes PROTECTED_VALUES.values b); cbn [length]; lia.
Qed.

(** X3: Escaping works byte by byte: the escaped form of a concatenation is
    the concatenation of the escaped forms, and unescaping escaped blocks
    written one after the other gives the payloads one after the other. *)
Theorem escapeData_app (data1 data2 : list Z) :
  escapeData (data1 ++ data2) = escapeData data1 ++ escapeData data2
  /\ unescaped (unescapeData (escapeData data1 ++ escapeData data2))
     = data1 ++ data2.
Proof.
  assert (Happ : escapeData (data1 ++ data2)
                 = escapeData data1 ++ escapeData data2).
  { induction data1 as [|b data1 IH]; [reflexivity|].
    cbn [app escapeData].
    destruct (JS.includes PROTECTED_VALUES.values b); cbn [app];
      now rewrite IH. }
  split; [exact Happ|].
  rewrite <- Happ. apply unescape_escape.
Qed.

(** X4: The markers that come with the unescaped bytes of an escaped payload
    tell, position by position, which payload bytes were protected. *)
Theorem unescapeData_escapeData_markers (data : list Z) :
  breakdown (unescapeData (escapeData data))
  = map (JS.includes PROTECTED_VALUES.values) data.
Proof.
  induction data as [|b data IH]; [reflexivity|].
  cbn [escapeData map].
  destruct (JS.includes PROTECTED_VALUES.values b) eqn:Hp.
  - rewrite unescapeData_pair. cbn [pushUnescaped breakdown]. now rewrite IH.
  - rewrite unescapeData_literal by (now apply includes_unprotected).
    cbn [pushUnescaped breakdown]. now rewrite IH.
Qed.

(** ** The scan of any input *)

(** X5: On any input the scan returns as many markers as bytes; each marked
    output byte stands for two input bytes and each unmarked one for one,
    so the output is at most as long as the input and at least half as
    long. *)
Theorem unescapeData_lengths (data : list Z) :
  length (breakdown (unescapeData data)) = length (unescaped (unescapeData data))
  /\ length data
     = (length (unescaped (unescapeData data))
        + length (filter (fun e => e) (breakdown (unescapeData data))))%nat
  /\ (length (unescaped (unescapeData data)) <= length data
      <= 2 * length (unescaped (unescapeData data)))%nat.
Proof.
  induction data as [| a | a b data IH1 IH2] using scan_ind.
  - cbn. lia.
  - cbn. lia.
  - destruct (Z.eq_dec a PROTECTED_VALUES.ESCAPE) as [-> | Ha].
    + rewrite unescapeData_pair.
      cbn [pushUnescaped unescaped breakdown length filter].
      destruct IH1 as (H1 & H2 & H3). cbn [length]. lia.
    + rewrite (unescapeData_literal a (b :: data) Ha).
      cbn [pushUnescaped unescaped breakdown length filter].
      destruct IH2 as (H1 & H2 & H3). cbn [length] in *. lia.
Qed.

(** Every byte that the scan writes for an escape pair lies in [[0,255]],
    so bytes in give bytes out. *)
Lemma band_0xFF_byte (x : Z) : isByte (JS.band x 0xFF).
Proof.
  unfold JS.band, isByte.
  rewrite (toInt32_small 0xFF) by (change (2 ^ 31) with 2147483648; lia).
  rewrite (Z.land_ones (JS.toInt32 x) 8 ltac:(lia)
           : Z.land (JS.toInt32 x) 0xFF = _).
  change (2 ^ 8) with 256.
  pose proof (Z.mod_pos_bound (JS.toInt32 x) 256). lia.
Qed.

Lemma unescapeData_bytes (data : list Z) :
  Forall isByte data -> Forall isByte (unescaped (unescapeData data)).
Proof.
  induction data as [| a | a b data IH1 IH2] using scan_ind; intros Hall.
  - constructor.
  - exact Hall.
  - inversion Hall as [|? ? Ha Hrest]; subst.
    inversion Hrest as [|? ? Hb Hdata]; subst.
    destruct (Z.eq_dec a PROTECTED_VALUES.ESCAPE) as [-> | Hne].
    + rewrite unescapeData_pair. cbn [pushUnescaped unescaped].
      constructor; [apply band_0xFF_byte | now apply IH1].
    + rewrite (unescapeData_literal a (b :: data) Hne).
      cbn [pushUnescaped unescaped]. constructor; [exact Ha | now apply IH2].
Qed.

(** ** The checksum *)

Lemma sumBytes_app (a b : list Z) : sumBytes (a ++ b) = sumBytes a + sumBytes b.
Proof.
  unfold sumBytes. induction a as [|x a IH]; simpl; [reflexivity|].
  rewrite IH. lia.
Qed.

Lemma sumBytes_permutation (d1 d2 : list Z) :
  Permutation d1 d2 -> sumBytes d1 = sumBytes d2.
Proof.
  unfold sumBytes. induction 1; simpl; lia.
Qed.

(** X6: The checksum is a sum: it is the same for every order of the data
    bytes, so it never detects bytes that were swapped or reordered. *)
Theorem calculateChecksum_permutation (header length : Z) (d1 d2 : list Z) :
  Permutation d1 d2 ->
  calculateChecksum header length d1 = calculateChecksum header length d2.
Proof.
  intros Hperm. rewrite !calculateChecksum_mod.
  now rewrite (sumBytes_permutation d1 d2 Hperm).
Qed.

Lemma calculateChecksum_permutation_witness :
  calculateChecksum 0xFE 0x03 [0x00; 0x21; 0x02]
  = calculateChecksum 0xFE 0x03 [0x02; 0x00; 0x21].
Proof.
  apply (calculateChecksum_permutation 0xFE 0x03
           [0x00; 0x21; 0x02] [0x02; 0x00; 0x21]).
  apply (perm_trans (l' := [0x00; 0x02; 0x21])).
  - apply perm_skip. apply perm_swap.
  - apply perm_swap.
Defined.

(** X7: When one data byte is replaced by another byte, the checksum stays the
    same exactly when the two bytes are equal or differ by 128: every
    other change of a single byte is detected, a flip of the top bit alone
    never is. *)
Theorem calculateChecksum_single_byte (header length x y : Z)
    (before after : list Z) :
  isByte x -> isByte y ->
  calculateChecksum header length (before ++ x :: after)
  = calculateChecksum header length (before ++ y :: after)
  <-> x = y \/ x = y + 128 \/ y = x + 128.
Proof.
  unfold isByte. intros Hx Hy.
  rewrite !calculateChecksum_mod, !sumBytes_app.
  change (sumBytes (x :: after)) with (x + sumBytes after).
  change (sumBytes (y :: after)) with (y + sumBytes after).
  rewrite Z.cong_iff_0.
  replace (header + length + (sumBytes before + (x + sumBytes after))
           - (header + length + (sumBytes before + (y + sumBytes after))))
    with (x - y) by lia.
  split.
  - intros Hmod. apply Z.mod_divide in Hmod; [|lia].
    destruct Hmod as [k Hk]. lia.
  - intros [-> | [-> | ->]].
    + now rewrite Z.sub_diag.
    + now replace (y + 128 - y) with (1 * 128) by lia.
    + now replace (x - (x + 128)) with ((-1) * 128) by lia.
Qed.

Lemma calculateChecksum_single_byte_witness :
  calculateChecksum 0xFE 0x03 ([0x00] ++ 0x21 :: [0x02])
  = calculateChecksum 0xFE 0x03 ([0x00] ++ 0xA1 :: [0x02])
  <-> 0x21 = 0xA1 \/ 0x21 = 0xA1 + 128 \/ 0xA1 = 0x21 + 128.
Proof.
  apply (calculateChecksum_single_byte 0xFE 0x03 0x21 0xA1 [0x00] [0x02]);
    unfold isByte; lia.
Defined.

(** ** Hex text *)

(** A decidable property of characters holds of all of them when it
    holds of the 256 of them. *)
Lemma ascii_forall (P : ascii -> bool) :
  forallb P (map ascii_of_nat (seq 0 256)) = true -> forall c, P c = true.
Proof.
  intros Hall c. rewrite forallb_forall in Hall. apply Hall.
  rewrite <- (ascii_nat_embedding c). apply in_map, in_seq.
  pose proof (nat_ascii_bounded c). lia.
Qed.

Lemma hexDigitValue_range (c : ascii) :
  JS.isHexDigit c = true -> 0 <= JS.hexDigitValue c <= 15.
Proof.
  intros Hc.
  pose proof (ascii_forall
                (fun c => implb (JS.isHexDigit c)
                            ((0 <=? JS.hexDigitValue c)
                             && (JS.hexDigitValue c <=? 15)))
                ltac:(vm_compute; reflexivity) c) as H.
  cbv beta in H. rewrite Hc in H. cbn [implb] in H.
  apply andb_prop in H. destruct H as [H1 H2].
  apply Z.leb_le in H1. apply Z.leb_le in H2. lia.
Qed.

Lemma hexChunks_bytes (s : string) :
  allHex s = true -> Forall isByte (hexChunks s).
Proof.
  induction s as [| c | c1 c2 s IH] using string_pair_ind; intros Hall.
  - constructor.
  - cbn [allHex] in Hall. apply andb_prop in Hall. destruct Hall as [Hc _].
    cbn [hexChunks]. unfold JS.parseInt16. cbn [JS.parseHexDigits].
    rewrite Hc. constructor; [|constructor].
    pose proof (hexDigitValue_range c Hc). unfold isByte. lia.
  - cbn [allHex] in Hall. apply andb_prop in Hall. destruct Hall as [Hc1 Hall].
    apply andb_prop in Hall. destruct Hall as [Hc2 Hall].
    cbn [hexChunks]. unfold JS.parseInt16. cbn [JS.parseHexDigits].
    rewrite Hc1, Hc2. constructor; [|now apply IH].
    pose proof (hexDigitValue_range c1 Hc1).
    pose proof (hexDigitValue_range c2 Hc2). unfold isByte. lia.
Qed.

Lemma hexToBytes_isByte (hex : string) : Forall isByte (hexToBytes hex).
Proof. apply hexChunks_bytes, allHex_stripNonHex. Qed.

(** X8: Whatever the text, [hexToBytes] returns bytes of [[0,255]], one per
    started pair of hex digits; writing them with [bytesToHex] gives a text
    that reads back as the same bytes. *)
Theorem hexToBytes_normalises (hex : string) :
  Forall isByte (hexToBytes hex)
  /\ length (hexToBytes hex)
     = Nat.div2 (S (String.length (JS.stripNonHex hex)))
  /\ hexToBytes (bytesToHex (hexToBytes hex)) = hexToBytes hex.
Proof.
  split; [apply hexToBytes_isByte|]. split.
  - apply hexChunks_length.
  - apply hexToBytes_bytesToHex, hexToBytes_isByte.
Qed.







(** X10: The text that [bytesToHex] writes for [n] bytes has two characters per
    byte and one space between neighbours: 3n - 1 characters for n >= 1,
    none for the empty sequence. *)
Theorem bytesToHex_length (bytes : list Z) :
  Forall isByte bytes ->
  String.length (bytesToHex bytes) = (3 * length bytes - 1)%nat.
Proof.
  induction 1 as [|b bytes Hb Hbytes IH]; [reflexivity|].
  destruct (byteToHex_two_digits b Hb) as (c1 & c2 & Hhex & _).
  unfold bytesToHex in *. cbn [map String.concat].
  destruct bytes as [|b' bytes].
  - cbn [map]. now rewrite Hhex.
  - cbn [map] in *. rewrite Hhex.
    cbn [String.append String.length]. rewrite IH. cbn [length]. lia.
Qed.

Lemma bytesToHex_length_witness :
  String.length (bytesToHex [0xFE; 0x03; 0x00; 0x21; 0x02; 0x24; 0xFF])
  = (3 * length [0xFE; 0x03; 0x00; 0x21; 0x02; 0x24; 0xFF] - 1)%nat.
Proof.
  apply (bytesToHex_length [0xFE; 0x03; 0x00; 0x21; 0x02; 0x24; 0xFF]).
  repeat constructor; unfold isByte; lia.
Defined.

(** ** Frames *)

Lemma frame_checksum_tail (h l c t : Z) (body : list Z) :
  let frame := [h; l] ++ body ++ [c; t] in
  nth (length frame - 2) frame 0 = c /\ nth (length frame - 1) frame 0 = t.
Proof.
  cbv zeta.
  replace ([h; l] ++ body ++ [c; t]) with (([h; l] ++ body) ++ [c; t])
    by now rewrite <- app_assoc.
  rewrite length_app. cbn [length].
  split.
  - rewrite app_nth2 by lia.
    now replace (length ([h; l] ++ body) + 2 - 2 - length ([h; l] ++ body))%nat
      with 0%nat by lia.
  - rewrite app_nth2 by lia.
    now replace (length ([h; l] ++ body) + 2 - 1 - length ([h; l] ++ body))%nat
      with 1%nat by lia.
Qed.

Lemma checksum_not_delimiter (header length : Z) (data : list Z) :
  calculateChecksum header length data <> 0xFE
  /\ calculateChecksum header length data <> 0xFF.
Proof.
  pose proof (calculateChecksum_range header length data). lia.
Qed.

Lemma count_occ_frame (x h l t : Z) (body : list Z) :
  ~ In x body ->
  count_occ Z.eq_dec ([h; l] ++ body ++ [t]) x
  = (count_occ Z.eq_dec [h; l] x + count_occ Z.eq_dec [t] x)%nat.
Proof.
  intros Hx. rewrite !count_occ_app.
  now rewrite (proj1 (count_occ_not_In Z.eq_dec body x) Hx).
Qed.

(** X11: In the frame of an envelope of at most 255 bytes, everything between
    the length byte and the tail byte, checksum included, is free of 0xFE
    and 0xFF.  The length byte itself is written unescaped: for envelopes
    of at most 252 bytes the frame holds 0xFE once, in front, and 0xFF
    once, at the end. *)
Theorem buildPacket_delimiters (envelope : list Z) :
  Forall isByte envelope -> (length envelope <= 255)%nat ->
  exists body,
    hexToBytes (buildPacket envelope)
    = 0xFE :: Z.of_nat (length envelope) :: body ++ [0xFF]
    /\ ~ In 0xFE body /\ ~ In 0xFF body
    /\ ((length envelope <= 252)%nat ->
        count_occ Z.eq_dec (hexToBytes (buildPacket envelope)) 0xFE = 1%nat
        /\ count_occ Z.eq_dec (hexToBytes (buildPacket envelope)) 0xFF = 1%nat).
Proof.
  intros Hbytes Hlen.
  rewrite (hexToBytes_buildPacket envelope Hbytes Hlen).
  set (n := Z.of_nat (length envelope)).
  set (c := calculateChecksum PROTECTED_VALUES.HEADER n envelope).
  destruct (escapeData_wire envelope) as (Hh & Ht & _).
  destruct (checksum_not_delimiter PROTECTED_VALUES.HEADER n envelope)
    as [Hch Hct]. fold c in Hch, Hct.
  assert (Hbh : ~ In 0xFE (escapeData envelope ++ [c])).
  { rewrite in_app_iff. intros [H | [H | []]]; [now apply Hh | congruence]. }
  assert (Hbt : ~ In 0xFF (escapeData envelope ++ [c])).
  { rewrite in_app_iff. intros [H | [H | []]]; [now apply Ht | congruence]. }
  exists (escapeData envelope ++ [c]).
  assert (Hframe : packetBytes envelope
                   = 0xFE :: n :: (escapeData envelope ++ [c]) ++ [0xFF]).
  { unfold packetBytes. fold n. fold c. cbn [app].
    now rewrite <- app_assoc. }
  split; [exact Hframe|]. split; [exact Hbh|]. split; [exact Hbt|].
  intros Hsmall. rewrite Hframe.
  change (0xFE :: n :: (escapeData envelope ++ [c]) ++ [0xFF])
    with ([0xFE; n] ++ (escapeData envelope ++ [c]) ++ [0xFF]).
  rewrite (count_occ_frame 0xFE _ _ _ _ Hbh).
  rewrite (count_occ_frame 0xFF _ _ _ _ Hbt).
  cbn [count_occ].
  destruct (Z.eq_dec 0xFE 0xFE) as [_|Hne]; [|congruence].
  destruct (Z.eq_dec 0xFF 0xFF) as [_|Hne]; [|congruence].
  destruct (Z.eq_dec 0xFE 0xFF) as [Heq|_]; [discriminate Heq|].
  destruct (Z.eq_dec 0xFF 0xFE) as [Heq|_]; [discriminate Heq|].
  destruct (Z.eq_dec n 0xFE) as [Heq|_]; [subst n; lia|].
  destruct (Z.eq_dec n 0xFF) as [Heq|_]; [subst n; lia|].
  split; reflexivity.
Qed.

Lemma buildPacket_delimiters_witness :
  exists body,
    hexToBytes (buildPacket [0x00; 0xFE; 0xFF])
    = 0xFE :: Z.of_nat (length [0x00; 0xFE; 0xFF]) :: body ++ [0xFF]
    /\ ~ In 0xFE body /\ ~ In 0xFF body
    /\ ((length [0x00; 0xFE; 0xFF] <= 252)%nat ->
        count_occ Z.eq_dec (hexToBytes (buildPacket [0x00; 0xFE; 0xFF])) 0xFE
        = 1%nat
        /\ count_occ Z.eq_dec (hexToBytes (buildPacket [0x00; 0xFE; 0xFF])) 0xFF
           = 1%nat).
Proof.
  apply (buildPacket_delimiters [0x00; 0xFE; 0xFF]).
  - repeat constructor; unfold isByte; lia.
  - simpl. lia.
Defined.

Lemma parsePacket_frame (h l c t : Z) (body : list Z) :
  Forall isByte ([h; l] ++ body ++ [c; t]) -> body <> [] ->
  parsePacket (bytesToHex ([h; l] ++ body ++ [c; t]))
  = [headerEntry h; lengthEntry l;
     envelopeEntry body (unescaped (unescapeData body))]
    ++ envelopeFields (unescaped (unescapeData body))
    ++ [checksumEntry c (calculateChecksum h l (unescaped (unescapeData body)));
        tailEntry t].
Proof.
  intros Hbytes Hbody.
  assert (Hlen : (5 <= length (hexToBytes
                                 (bytesToHex ([h; l] ++ body ++ [c; t]))))%nat).
  { rewrite (hexToBytes_bytesToHex _ Hbytes), !length_app. cbn [length].
    destruct body; [congruence | cbn [length]; lia]. }
  rewrite (parsePacket_long _ Hlen). cbv zeta.
  rewrite (hexToBytes_bytesToHex _ Hbytes).
  rewrite envelopeWithEscapes_frame.
  destruct (frame_checksum_tail h l c t body) as [-> ->].
  reflexivity.
Qed.

(** X12: Decoding the frame that the encoder builds for a non-empty envelope of
    at most 255 bytes finds nothing to flag: the header and the tail are
    reported valid, the length entry shows the envelope's length, the
    checksum entry is "Valid Checksum", and the destination, command and
    subcommand entries are those of the envelope. *)
Theorem parsePacket_buildPacket (envelope : list Z) :
  Forall isByte envelope -> envelope <> [] -> (length envelope <= 255)%nat ->
  exists c,
    parsePacket (buildPacket envelope)
    = [headerEntry 0xFE; lengthEntry (Z.of_nat (length envelope));
       envelopeEntry (escapeData envelope) envelope]
      ++ envelopeFields envelope
      ++ [checksumEntry c c; tailEntry 0xFF]
    /\ description (headerEntry 0xFE) = "Valid Start Character (0xFE)"%string
    /\ description (checksumEntry c c) = "Valid Checksum"%string
    /\ description (tailEntry 0xFF) = "Valid End Character (0xFF)"%string.
Proof.
  intros Hbytes Hne Hlen.
  exists (calculateChecksum 0xFE (Z.of_nat (length envelope)) envelope).
  split.
  - unfold buildPacket.
    pose proof (packetBytes_bytes envelope Hbytes Hlen) as Hframe.
    unfold packetBytes in *.
    rewrite (parsePacket_frame _ _ _ _ _ Hframe
               (escapeData_nonempty envelope Hne)).
    now rewrite unescape_escape.
  - split; [reflexivity|]. split; [|reflexivity].
    unfold checksumEntry. cbn [description]. now rewrite Z.eqb_refl.
Qed.

Lemma parsePacket_buildPacket_witness :
  exists c,
    parsePacket (buildPacket [0x00; 0x20; 0x01; 0xFF])
    = [headerEntry 0xFE; lengthEntry (Z.of_nat (length [0x00; 0x20; 0x01; 0xFF]));
       envelopeEntry (escapeData [0x00; 0x20; 0x01; 0xFF])
         [0x00; 0x20; 0x01; 0xFF]]
      ++ envelopeFields [0x00; 0x20; 0x01; 0xFF]
      ++ [checksumEntry c c; tailEntry 0xFF]
    /\ description (headerEntry 0xFE) = "Valid Start Character (0xFE)"%string
    /\ description (checksumEntry c c) = "Valid Checksum"%string
    /\ description (tailEntry 0xFF) = "Valid End Character (0xFF)"%string.
Proof.
  apply (parsePacket_buildPacket [0x00; 0x20; 0x01; 0xFF]).
  - repeat constructor; unfold isByte; lia.
  - discriminate.
  - simpl. lia.
Defined.

Lemma parsePacket_labels (hex : string) :
  map label (parsePacket hex)
  = if (length (hexToBytes hex) <? 5)%nat then []
    else ["Header"; "Length"; "Data Envelope"]%string
         ++ match requestEnvelope hex with
            | _ :: _ :: _ :: _ =>
                ["Destination"; "Command"; "Subcommand/Param"]%string
            | [_; _] => ["Destination"; "Command"]%string
            | _ => []
            end
         ++ ["Checksum"; "Tail"]%string.
Proof.
  destruct (Nat.ltb_spec (length (hexToBytes hex)) 5) as [Hlt | Hge].
  - now rewrite (parsePacket_short hex Hlt).
  - rewrite (parsePacket_long hex Hge). cbv zeta.
    fold (requestEnvelope hex).
    destruct (requestEnvelope hex) as [|d [|c [|s rest]]]; reflexivity.
Qed.

(** X13: A breakdown has no entries (fewer than five bytes), or five, seven or
    eight of them, and no label occurs twice in it; it is empty only for
    an input of fewer than five bytes. *)
Theorem parsePacket_shape (hex : string) :
  NoDup (map label (parsePacket hex))
  /\ In (length (parsePacket hex)) [0; 5; 7; 8]%nat
  /\ (parsePacket hex = [] <-> (length (hexToBytes hex) < 5)%nat).
Proof.
  pose proof (parsePacket_labels hex) as Hlabels.
  assert (Hlen : length (parsePacket hex) = length (map label (parsePacket hex)))
    by now rewrite length_map.
  destruct (Nat.ltb_spec (length (hexToBytes hex)) 5) as [Hlt | Hge].
  - rewrite (parsePacket_short hex Hlt). cbn.
    split; [constructor|]. split; [now left|]. split; auto.
  - assert (Hdistinct :
      forall l : list string,
        In l [ ["Header"; "Length"; "Data Envelope"; "Checksum"; "Tail"];
               ["Header"; "Length"; "Data Envelope"; "Destination"; "Command";
                "Checksum"; "Tail"];
               ["Header"; "Length"; "Data Envelope"; "Destination"; "Command";
                "Subcommand/Param"; "Checksum"; "Tail"] ]%string ->
        NoDup l).
    { intros l [<- | [<- | [<- | []]]];
        repeat (constructor; [cbn; intuition discriminate|]); constructor. }
    rewrite Hlen, Hlabels.
    destruct (requestEnvelope hex) as [|d [|c [|s rest]]]; cbn [app length];
      (split; [apply Hdistinct; cbn; tauto|]);
      (split; [cbn; tauto|]);
      (split; [intros Hnil; rewrite Hnil in Hlabels; discriminate Hlabels
              | lia]).
Qed.

Lemma checksum_header_shift (h n : Z) (data : list Z) :
  isByte h -> h <> 0xFE ->
  calculateChecksum 0xFE n data = calculateChecksum h n data <-> h = 0x7E.
Proof.
  unfold isByte. intros Hh Hne. rewrite !calculateChecksum_mod.
  rewrite Z.cong_iff_0.
  replace (254 + n + sumBytes data - (h + n + sumBytes data))
    with (254 - h) by lia.
  split.
  - intros Hmod. apply Z.mod_divide in Hmod; [|lia].
    destruct Hmod as [k Hk]. lia.
  - intros ->. reflexivity.
Qed.

Lemma checksumEntry_valid (c expected : Z) :
  description (checksumEntry c expected) = "Valid Checksum"%string
  <-> c = expected.
Proof.
  unfold checksumEntry. cbn [description].
  destruct (Z.eqb_spec c expected) as [Heq | Hne].
  - tauto.
  - split; [|contradiction]. cbn [String.append]. discriminate.
Qed.

(** X14: When the first byte of the frame of a non-empty envelope is replaced
    by another byte [h], the decoder still gives every entry: the header
    entry says "INVALID Header", and the entries between header and
    checksum and the tail entry are those of the intact frame.  The
    expected checksum is computed from the received first byte, so the
    checksum entry turns invalid too, except for [h] = 0x7E. *)
Theorem parsePacket_header_mutation (envelope : list Z) (h : Z) :
  Forall isByte envelope -> envelope <> [] -> (length envelope <= 255)%nat ->
  isByte h -> h <> 0xFE ->
  exists middle c expected,
    parsePacket (buildPacket envelope)
    = [headerEntry 0xFE] ++ middle ++ [checksumEntry c c; tailEntry 0xFF]
    /\ parsePacket (bytesToHex (h :: tl (hexToBytes (buildPacket envelope))))
       = [headerEntry h] ++ middle
         ++ [checksumEntry c expected; tailEntry 0xFF]
    /\ description (headerEntry h) = "INVALID Header"%string
    /\ (description (checksumEntry c expected) = "Valid Checksum"%string
        <-> h = 0x7E).
Proof.
  intros Hbytes Hne Hlen Hh Hhne.
  set (n := Z.of_nat (length envelope)).
  pose proof (packetBytes_bytes envelope Hbytes Hlen) as Hframe.
  exists ([lengthEntry n; envelopeEntry (escapeData envelope) envelope]
          ++ envelopeFields envelope),
    (calculateChecksum 0xFE n envelope), (calculateChecksum h n envelope).
  split; [|split; [|split]].
  - unfold buildPacket. unfold packetBytes in *. fold n in Hframe |- *.
    rewrite (parsePacket_frame _ _ _ _ _ Hframe
               (escapeData_nonempty envelope Hne)).
    rewrite unescape_escape. reflexivity.
  - rewrite (hexToBytes_buildPacket envelope Hbytes Hlen).
    unfold packetBytes in *. fold n in Hframe |- *. cbn [app tl] in *.
    assert (Hframe' : Forall isByte
                        ([h; n] ++ escapeData envelope
                         ++ [calculateChecksum PROTECTED_VALUES.HEADER n envelope;
                             PROTECTED_VALUES.TAIL])).
    { inversion Hframe; subst. now constructor. }
    change (h :: n :: escapeData envelope
              ++ [calculateChecksum PROTECTED_VALUES.HEADER n envelope;
                  PROTECTED_VALUES.TAIL])
      with ([h; n] ++ escapeData envelope
            ++ [calculateChecksum PROTECTED_VALUES.HEADER n envelope;
                PROTECTED_VALUES.TAIL]).
    rewrite (parsePacket_frame _ _ _ _ _ Hframe'
               (escapeData_nonempty envelope Hne)).
    rewrite unescape_escape. reflexivity.
  - unfold headerEntry. cbn [description].
    destruct (Z.eqb_spec h PROTECTED_VALUES.HEADER); [contradiction|reflexivity].
  - rewrite checksumEntry_valid. now apply checksum_header_shift.
Qed.

Lemma parsePacket_header_mutation_witness :
  exists middle c expected,
    parsePacket (buildPacket [0x00; 0x21; 0x02])
    = [headerEntry 0xFE] ++ middle ++ [checksumEntry c c; tailEntry 0xFF]
    /\ parsePacket
         (bytesToHex (0xAA :: tl (hexToBytes (buildPacket [0x00; 0x21; 0x02]))))
       = [headerEntry 0xAA] ++ middle
         ++ [checksumEntry c expected; tailEntry 0xFF]
    /\ description (headerEntry 0xAA) = "INVALID Header"%string
    /\ (description (checksumEntry c expected) = "Valid Checksum"%string
        <-> 0xAA = 0x7E).
Proof.
  apply (parsePacket_header_mutation [0x00; 0x21; 0x02] 0xAA).
  - repeat constructor; unfold isByte; lia.
  - discriminate.
  - simpl. lia.
  - unfold isByte; lia.
  - lia.
Defined.

(** ** The simulator, continued *)

Lemma Forall_firstn_skipn {A : Type} (P : A -> Prop) (l : list A) (n k : nat) :
  Forall P l -> Forall P (firstn n (skipn k l)).
Proof.
  intros Hall.
  assert (Hskip : Forall P (skipn k l)).
  { revert k. induction Hall as [|x l Hx Hl IH]; intros [|k]; cbn [skipn];
      try constructor; auto. }
  revert n. induction Hskip as [|x l' Hx Hl IH]; intros [|n]; cbn [firstn];
    constructor; auto.
Qed.

Lemma requestEnvelope_bytes (requestHex : string) :
  Forall isByte (requestEnvelope requestHex).
Proof.
  unfold requestEnvelope, envelopeWithEscapes, JS.slice.
  apply unescapeData_bytes, Forall_firstn_skipn, hexToBytes_isByte.
Qed.

Lemma requestEnvelope_buildPacket (envelope : list Z) :
  Forall isByte envelope -> (length envelope <= 255)%nat ->
  requestEnvelope (buildPacket envelope) = envelope.
Proof.
  intros Hbytes Hlen. unfold requestEnvelope.
  rewrite (envelope_of_buildPacket envelope Hbytes Hlen).
  apply unescape_escape.
Qed.

Lemma simulateResponse_short (requestHex : string) :
  (length (requestEnvelope requestHex) < 3)%nat ->
  simulateResponse requestHex = None.
Proof.
  intros Hshort. unfold simulateResponse.
  destruct (Nat.ltb_spec (length (hexToBytes requestHex)) 5) as [_ | _];
    [reflexivity|].
  fold (requestEnvelope requestHex).
  destruct (Nat.ltb_spec (length (requestEnvelope requestHex)) 3) as [_ | Hge];
    [reflexivity | lia].
Qed.

Lemma orDefault_byte (v : option Z) :
  (forall x, v = Some x -> isByte x) ->
  isByte (JS.orDefault v 0x01) /\ JS.orDefault v 0x01 <> 0.
Proof.
  intros Hv. destruct v as [x|]; cbn [JS.orDefault].
  - destruct (Z.eqb_spec x 0); [unfold isByte; lia|].
    split; [now apply Hv | assumption].
  - unfold isByte; lia.
Qed.

(** The five envelopes that the simulator can answer with. *)
Lemma simulateResponse_cases (requestHex responseHex : string) :
  simulateResponse requestHex = Some responseHex ->
  exists cmd rest,
    nth_error (requestEnvelope requestHex) 1 = Some cmd
    /\ responseHex = buildPacket (0x00 :: cmd :: 0x10 :: rest)
    /\ Forall isByte (0x00 :: cmd :: 0x10 :: rest)
    /\ ((cmd = CommandCode.LOGIN /\ rest = [0x01])
        \/ (cmd = CommandCode.OUTLET_NAME
            /\ exists idx, idx <> 0
                 /\ rest = idx :: asciiToBytes "Outlet 1")
        \/ (cmd = CommandCode.OUTLET_NAME /\ rest = [])
        \/ (cmd = CommandCode.POWER_OUTLETS
            /\ exists idx, idx <> 0 /\ rest = [idx; 0x01])
        \/ (cmd = CommandCode.PING /\ rest = [])).
Proof.
  intros Hresp.
  pose proof (requestEnvelope_bytes requestHex) as Hbytes.
  destruct (requestEnvelope requestHex) as [|dest [|cmd [|sub params]]] eqn:Henv;
    try (rewrite simulateResponse_short in Hresp
           by (rewrite Henv; cbn [length]; lia);
         discriminate Hresp).
  rewrite (simulateResponse_dispatch _ _ _ _ _ Henv) in Hresp.
  assert (Hidx : isByte (JS.orDefault (hd_error params) 1)
                 /\ JS.orDefault (hd_error params) 1 <> 0).
  { apply orDefault_byte. intros x Hx. destruct params as [|p params];
      [discriminate Hx|]. injection Hx as <-.
    inversion Hbytes as [|? ? _ H1]; subst.
    inversion H1 as [|? ? _ H2]; subst.
    inversion H2 as [|? ? _ H3]; subst.
    now inversion H3. }
  destruct Hidx as [Hidx Hnz].
  assert (Hname : Forall isByte (asciiToBytes "Outlet 1")).
  { cbn [asciiToBytes JS.charCodes].
    repeat (constructor; [unfold isByte; cbn; lia|]). constructor. }
  exists cmd.
  destruct (Z.eqb_spec cmd CommandCode.LOGIN) as [-> | _].
  { exists [0x01]. injection Hresp as <-.
    split; [reflexivity|]. split; [reflexivity|]. split; [|now left].
    repeat constructor; unfold isByte, CommandCode.LOGIN; lia. }
  destruct (Z.eqb_spec cmd CommandCode.OUTLET_NAME) as [-> | _].
  { destruct (Z.eqb_spec sub SubCommand.GET) as [-> | _].
    - exists (JS.orDefault (hd_error params) 1 :: asciiToBytes "Outlet 1").
      injection Hresp as <-.
      split; [reflexivity|]. split; [reflexivity|]. split.
      + constructor; [unfold isByte; lia|].
        constructor; [unfold isByte, CommandCode.OUTLET_NAME; lia|].
        constructor; [unfold isByte; lia|].
        constructor; [exact Hidx | exact Hname].
      + right; left. split; [reflexivity|]. now eexists.
    - exists []. injection Hresp as <-.
      split; [reflexivity|]. split; [reflexivity|]. split.
      + repeat constructor; unfold isByte, CommandCode.OUTLET_NAME; lia.
      + right; right; left. now split. }
  destruct (Z.eqb_spec cmd CommandCode.POWER_OUTLETS) as [-> | _].
  { exists [JS.orDefault (hd_error params) 1; 0x01]. injection Hresp as <-.
    split; [reflexivity|]. split; [reflexivity|]. split.
    - constructor; [unfold isByte; lia|].
      constructor; [unfold isByte, CommandCode.POWER_OUTLETS; lia|].
      constructor; [unfold isByte; lia|].
      constructor; [exact Hidx|].
      repeat constructor; unfold isByte; lia.
    - right; right; right; left. split; [reflexivity|]. now eexists. }
  destruct (Z.eqb_spec cmd CommandCode.PING) as [-> | _];
    [|discriminate Hresp].
  exists []. injection Hresp as <-.
  split; [reflexivity|]. split; [reflexivity|]. split.
  - repeat constructor; unfold isByte, CommandCode.PING; lia.
  - right; right; right; right. now split.
Qed.

Lemma simulateResponse_cases_length (cmd : Z) (rest : list Z) :
  (cmd = CommandCode.LOGIN /\ rest = [0x01])
  \/ (cmd = CommandCode.OUTLET_NAME
      /\ exists idx, idx <> 0 /\ rest = idx :: asciiToBytes "Outlet 1")
  \/ (cmd = CommandCode.OUTLET_NAME /\ rest = [])
  \/ (cmd = CommandCode.POWER_OUTLETS
      /\ exists idx, idx <> 0 /\ rest = [idx; 0x01])
  \/ (cmd = CommandCode.PING /\ rest = []) ->
  (length rest <= 9)%nat.
Proof.
  intros [[_ ->] | [[_ (idx & _ & ->)] | [[_ ->] | [[_ (idx & _ & ->)] | [_ ->]]]]];
    cbn; lia.
Qed.

(** X15: The simulator answers exactly the requests whose unescaped envelope
    has at least three bytes and whose command byte is PING, LOGIN,
    POWER_OUTLETS or OUTLET_NAME; for every other text it returns nothing. *)
Theorem simulateResponse_answers_iff (requestHex : string) :
  simulateResponse requestHex <> None
  <-> exists dest cmd sub params,
        requestEnvelope requestHex = dest :: cmd :: sub :: params
        /\ (cmd = CommandCode.PING \/ cmd = CommandCode.LOGIN
            \/ cmd = CommandCode.POWER_OUTLETS
            \/ cmd = CommandCode.OUTLET_NAME).
Proof.
  split.
  - intros Hsome.
    destruct (requestEnvelope requestHex) as [|dest [|cmd [|sub params]]] eqn:Henv;
      try (exfalso; apply Hsome; apply simulateResponse_short;
           rewrite Henv; cbn [length]; lia).
    exists dest, cmd, sub, params. split; [reflexivity|].
    rewrite (simulateResponse_dispatch _ _ _ _ _ Henv) in Hsome.
    destruct (Z.eqb_spec cmd CommandCode.LOGIN); [tauto|].
    destruct (Z.eqb_spec cmd CommandCode.OUTLET_NAME); [tauto|].
    destruct (Z.eqb_spec cmd CommandCode.POWER_OUTLETS); [tauto|].
    destruct (Z.eqb_spec cmd CommandCode.PING); [tauto|].
    now contradiction Hsome.
  - intros (dest & cmd & sub & params & Henv & Hcmd).
    rewrite (simulateResponse_dispatch _ _ _ _ _ Henv).
    destruct Hcmd as [-> | [-> | [-> | ->]]];
      try discriminate.
    change (CommandCode.OUTLET_NAME =? CommandCode.LOGIN) with false.
    change (CommandCode.OUTLET_NAME =? CommandCode.OUTLET_NAME) with true.
    cbn iota. destruct (sub =? SubCommand.GET); discriminate.
Qed.

(** X16: The simulator reads nothing but the unescaped envelope of the request:
    two texts with the same envelope get the same answer, whatever their
    header, length, checksum and tail bytes are.  A request with a wrong
    checksum is answered like the intact one. *)
Theorem simulateResponse_envelope_only (request1 request2 : string) :
  requestEnvelope request1 = requestEnvelope request2 ->
  simulateResponse request1 = simulateResponse request2.
Proof.
  intros Heq.
  destruct (requestEnvelope request2) as [|dest [|cmd [|sub params]]] eqn:Henv;
    try (rewrite !simulateResponse_short
           by (rewrite ?Heq, ?Henv; cbn [length]; lia);
         reflexivity).
  rewrite (simulateResponse_dispatch _ _ _ _ _ Heq).
  now rewrite (simulateResponse_dispatch _ _ _ _ _ Henv).
Qed.

Lemma simulateResponse_envelope_only_witness :
  simulateResponse "FE 03 00 01 02 04 FF"
  = simulateResponse "00 63 00 01 02 55 AA".
Proof.
  apply (simulateResponse_envelope_only
           "FE 03 00 01 02 04 FF" "00 63 00 01 02 55 AA").
  reflexivity.
Defined.

(** X17: Every response of the simulator is a frame of the encoder that decodes
    again: its unescaped envelope starts with destination 0x00, the command
    byte of the request and the subcommand RESPONSE (0x10), and has at most
    twelve bytes. *)
Theorem simulateResponse_decodes (requestHex responseHex : string) :
  simulateResponse requestHex = Some responseHex ->
  exists cmd rest,
    nth_error (requestEnvelope requestHex) 1 = Some cmd
    /\ responseHex = buildPacket (0x00 :: cmd :: SubCommand.RESPONSE :: rest)
    /\ requestEnvelope responseHex = 0x00 :: cmd :: SubCommand.RESPONSE :: rest
    /\ Forall isByte rest /\ (length rest <= 9)%nat.
Proof.
  intros Hresp.
  destruct (simulateResponse_cases _ _ Hresp)
    as (cmd & rest & Hcmd & -> & Hbytes & Hcases).
  pose proof (simulateResponse_cases_length cmd rest Hcases) as Hlen.
  exists cmd, rest. split; [exact Hcmd|]. split; [reflexivity|].
  split; [apply requestEnvelope_buildPacket; [exact Hbytes | cbn [length]; lia]|].
  split; [|exact Hlen].
  inversion Hbytes as [|? ? _ H1]; subst.
  inversion H1 as [|? ? _ H2]; subst. now inversion H2.
Qed.

Lemma simulateResponse_decodes_witness :
  exists cmd rest,
    nth_error (requestEnvelope "FE 04 00 21 02 03 28 FF") 1 = Some cmd
    /\ "FE 0C 00 21 10 03 4F 75 74 6C 65 74 20 31 0C FF"%string
       = buildPacket (0x00 :: cmd :: SubCommand.RESPONSE :: rest)
    /\ requestEnvelope "FE 0C 00 21 10 03 4F 75 74 6C 65 74 20 31 0C FF"
       = 0x00 :: cmd :: SubCommand.RESPONSE :: rest
    /\ Forall isByte rest /\ (length rest <= 9)%nat.
Proof.
  apply (simulateResponse_decodes "FE 04 00 21 02 03 28 FF"
           "FE 0C 00 21 10 03 4F 75 74 6C 65 74 20 31 0C FF").
  reflexivity.
Defined.

(** X18: Fed with one of its own responses, the simulator answers again (it does
    not look at the subcommand RESPONSE of what it is given), and its
    answer to a response is a text that it answers with itself; unless the
    command is OUTLET_NAME, the response itself is already such a text. *)
Theorem simulateResponse_of_response (requestHex responseHex : string) :
  simulateResponse requestHex = Some responseHex ->
  exists again,
    simulateResponse responseHex = Some again
    /\ simulateResponse again = Some again
    /\ (nth_error (requestEnvelope requestHex) 1
        <> Some CommandCode.OUTLET_NAME -> again = responseHex).
Proof.
  intros Hresp.
  destruct (simulateResponse_cases _ _ Hresp)
    as (cmd & rest & Hcmd & -> & Hbytes & Hcases).
  pose proof (simulateResponse_cases_length cmd rest Hcases) as Hlen.
  assert (Henv : requestEnvelope (buildPacket (0x00 :: cmd :: 0x10 :: rest))
                 = 0x00 :: cmd :: 0x10 :: rest)
    by (apply requestEnvelope_buildPacket; [exact Hbytes | cbn [length]; lia]).
  rewrite (simulateResponse_dispatch _ _ _ _ _ Henv).
  assert (Hbare : forall c, isByte c ->
            requestEnvelope (buildPacket [0x00; c; 0x10]) = [0x00; c; 0x10]).
  { intros c Hc. apply requestEnvelope_buildPacket; [|cbn; lia].
    repeat constructor; unfold isByte in *; lia. }
  rewrite Hcmd.
  destruct Hcases
    as [[-> ->] | [[-> (idx & Hidx & ->)] | [[-> ->] | [[-> (idx & Hidx & ->)] | [-> ->]]]]].
  - eexists. split; [reflexivity|]. split; [|reflexivity].
    erewrite simulateResponse_dispatch; [|exact Henv]. reflexivity.
  - eexists. split; [reflexivity|]. split; [|congruence].
    erewrite simulateResponse_dispatch;
      [|apply (Hbare CommandCode.OUTLET_NAME);
        unfold isByte, CommandCode.OUTLET_NAME; lia].
    reflexivity.
  - eexists. split; [reflexivity|]. split; [|reflexivity].
    erewrite simulateResponse_dispatch; [|exact Henv]. reflexivity.
  - assert (Hor : JS.orDefault (hd_error [idx; 1]) 1 = idx).
    { cbn [hd_error JS.orDefault].
      destruct (Z.eqb_spec idx 0); [contradiction | reflexivity]. }
    exists (buildPacket [0x00; CommandCode.POWER_OUTLETS; 0x10; idx; 0x01]).
    assert (Hagain :
      (if CommandCode.POWER_OUTLETS =? CommandCode.LOGIN
       then Some (buildPacket [0; CommandCode.POWER_OUTLETS;
                               SubCommand.RESPONSE; 1])
       else if CommandCode.POWER_OUTLETS =? CommandCode.OUTLET_NAME
       then if 16 =? SubCommand.GET
            then Some (buildPacket
                         ([0; CommandCode.POWER_OUTLETS; SubCommand.RESPONSE;
                           JS.orDefault (hd_error [idx; 1]) 1]
                          ++ asciiToBytes "Outlet 1"))
            else Some (buildPacket [0; CommandCode.POWER_OUTLETS;
                                    SubCommand.RESPONSE])
       else if CommandCode.POWER_OUTLETS =? CommandCode.POWER_OUTLETS
       then Some (buildPacket
                    [0; CommandCode.POWER_OUTLETS; SubCommand.RESPONSE;
                     JS.orDefault (hd_error [idx; 1]) 1; 1])
       else if CommandCode.POWER_OUTLETS =? CommandCode.PING
       then Some (buildPacket [0; CommandCode.PING; SubCommand.RESPONSE])
       else None)
      = Some (buildPacket [0x00; CommandCode.POWER_OUTLETS; 0x10; idx; 0x01])).
    { change (CommandCode.POWER_OUTLETS =? CommandCode.LOGIN) with false.
      change (CommandCode.POWER_OUTLETS =? CommandCode.OUTLET_NAME) with false.
      change (CommandCode.POWER_OUTLETS =? CommandCode.POWER_OUTLETS) with true.
      cbv iota. now rewrite Hor. }
    split; [exact Hagain|]. split; [|reflexivity].
    erewrite simulateResponse_dispatch; [|exact Henv]. exact Hagain.
  - eexists. split; [reflexivity|]. split; [|reflexivity].
    erewrite simulateResponse_dispatch; [|exact Henv]. reflexivity.
Qed.

Lemma simulateResponse_of_response_witness :
  exists again,
    simulateResponse "FE 05 00 20 10 07 01 3B FF" = Some again
    /\ simulateResponse again = Some again
    /\ (nth_error (requestEnvelope "FE 04 00 20 01 07 2A FF") 1
        <> Some CommandCode.OUTLET_NAME ->
        again = "FE 05 00 20 10 07 01 3B FF"%string).
Proof.
  apply (simulateResponse_of_response "FE 04 00 20 01 07 2A FF"
           "FE 05 00 20 10 07 01 3B FF").
  reflexivity.
Defined.

(** ** The packet builder *)

Lemma builderEnvelope_hex (command subCommand : Z) (params : string) :
  command <> CommandCode.LOGIN ->
  builderEnvelope command subCommand params
  = 0x00 :: command :: subCommand :: hexToBytes params.
Proof.
  intros Hcmd. unfold builderEnvelope.
  destruct (Z.eqb_spec command CommandCode.LOGIN); [contradiction|].
  destruct params; reflexivity.
Qed.

(** X19: For a command other than LOGIN the builder's envelope is destination
    0x00, the command, the subcommand and the bytes read from the parameter
    text (none for an empty text); when command and subcommand are bytes
    and the text gives at most 252 bytes, the generated packet decodes to
    that envelope again. *)
Theorem generatedHex_decodes (command subCommand : Z) (params : string) :
  command <> CommandCode.LOGIN -> isByte command -> isByte subCommand ->
  (length (hexToBytes params) <= 252)%nat ->
  builderEnvelope command subCommand params
  = 0x00 :: command :: subCommand :: hexToBytes params
  /\ requestEnvelope (generatedHex command subCommand params)
     = 0x00 :: command :: subCommand :: hexToBytes params.
Proof.
  intros Hcmd Hc Hs Hlen.
  pose proof (builderEnvelope_hex command subCommand params Hcmd) as Henv.
  split; [exact Henv|].
  unfold generatedHex. rewrite Henv.
  apply requestEnvelope_buildPacket.
  - constructor; [unfold isByte; lia|].
    constructor; [exact Hc|]. constructor; [exact Hs|].
    apply hexToBytes_isByte.
  - cbn [length]. lia.
Qed.

Lemma generatedHex_decodes_witness :
  builderEnvelope 0x21 0x02 "01 fF" = 0x00 :: 0x21 :: 0x02 :: hexToBytes "01 fF"
  /\ requestEnvelope (generatedHex 0x21 0x02 "01 fF")
     = 0x00 :: 0x21 :: 0x02 :: hexToBytes "01 fF".
Proof.
  apply (generatedHex_decodes 0x21 0x02 "01 fF").
  - discriminate.
  - unfold isByte; lia.
  - unfold isByte; lia.
  - vm_compute. lia.
Defined.

(** X20: A LOGIN packet of the builder is accepted by the simulator whatever
    the subcommand and the credentials text are (the default credentials
    standing in for an empty text), as long as the characters are bytes
    and the envelope fits the length byte. *)
Theorem generatedHex_login_accepted (subCommand : Z) (params : string) :
  isByte subCommand ->
  Forall isByte (asciiToBytes params) ->
  (String.length params <= 252)%nat ->
  simulateResponse (generatedHex CommandCode.LOGIN subCommand params)
  = Some (buildPacket [0x00; CommandCode.LOGIN; SubCommand.RESPONSE; 0x01]).
Proof.
  intros Hs Hbytes Hlen.
  assert (Hcodes : forall s, length (asciiToBytes s) = String.length s).
  { induction s as [|c s IH]; [reflexivity|].
    cbn [asciiToBytes JS.charCodes length String.length].
    unfold asciiToBytes in IH. now rewrite IH. }
  assert (Henv : exists credentials,
            builderEnvelope CommandCode.LOGIN subCommand params
            = 0x00 :: CommandCode.LOGIN :: subCommand :: credentials
            /\ Forall isByte credentials /\ (length credentials <= 252)%nat).
  { unfold builderEnvelope.
    change (CommandCode.LOGIN =? CommandCode.LOGIN) with true. cbv iota.
    destruct params as [|c params].
    - cbn [truthy]. eexists. split; [reflexivity|]. split.
      + cbn [asciiToBytes JS.charCodes].
        repeat (constructor; [unfold isByte; cbn; lia|]). constructor.
      + rewrite Hcodes. cbn. lia.
    - cbn [truthy]. eexists. split; [reflexivity|].
      split; [exact Hbytes|]. now rewrite Hcodes. }
  destruct Henv as (credentials & Henv & Hcred & Hclen).
  unfold generatedHex. rewrite Henv.
  assert (Hreq : requestEnvelope
                   (buildPacket
                      (0x00 :: CommandCode.LOGIN :: subCommand :: credentials))
                 = 0x00 :: CommandCode.LOGIN :: subCommand :: credentials).
  { apply requestEnvelope_buildPacket; [|cbn [length]; lia].
    constructor; [unfold isByte; lia|].
    constructor; [unfold isByte, CommandCode.LOGIN; lia|].
    now constructor. }
  now rewrite (simulateResponse_dispatch _ _ _ _ _ Hreq).
Qed.

Lemma generatedHex_login_accepted_witness :
  simulateResponse (generatedHex CommandCode.LOGIN 0x01 "admin|secret")
  = Some (buildPacket [0x00; CommandCode.LOGIN; SubCommand.RESPONSE; 0x01]).
Proof.
  apply (generatedHex_login_accepted 0x01 "admin|secret").
  - unfold isByte; lia.
  - cbn [asciiToBytes JS.charCodes].
    repeat (constructor; [unfold isByte; cbn; lia|]). constructor.
  - simpl. lia.
Defined.

(** ** The activity log *)

Lemma logSummary_envelope (hex : string) :
  logSummary hex
  = match nth_error (requestEnvelope hex) 1 with
    | Some cmd => enumNameOr CommandCode.commandMembers cmd "Unknown"
    | None => "Unknown"%string
    end.
Proof. reflexivity. Qed.

Lemma truthy_buildPacket (envelope : list Z) :
  truthy (buildPacket envelope) = true.
Proof.
  unfold buildPacket, packetBytes, bytesToHex.
  cbn [app map String.concat].
  change (byteToHex PROTECTED_VALUES.HEADER) with "FE"%string.
  destruct (map byteToHex
              (escapeData envelope
               ++ [calculateChecksum PROTECTED_VALUES.HEADER
                     (Z.of_nat (length envelope)) envelope;
                   PROTECTED_VALUES.TAIL])); reflexivity.
Qed.

(** X21: Sending a text logs the TX entry and, exactly when the simulator
    answers, one RX entry with the response; the RX entry carries the same
    summary as the TX entry, which is then one of the four answered command
    names.  A text that is not answered logs the TX entry alone. *)
Theorem handleSendPacketLog_echo (hex : string) :
  match simulateResponse hex with
  | Some responseHex =>
      handleSendPacketLog hex
      = [(TX, hex, logSummary hex); (RX, responseHex, logSummary hex)]
      /\ In (logSummary hex)
           ["PING"; "LOGIN"; "POWER_OUTLETS"; "OUTLET_NAME"]%string
  | None => handleSendPacketLog hex = [(TX, hex, logSummary hex)]
  end.
Proof.
  unfold handleSendPacketLog.
  destruct (simulateResponse hex) as [responseHex|] eqn:Hresp; [|reflexivity].
  destruct (simulateResponse_cases _ _ Hresp)
    as (cmd & rest & Hcmd & -> & Hbytes & Hcases).
  pose proof (simulateResponse_cases_length cmd rest Hcases) as Hlen.
  rewrite truthy_buildPacket.
  assert (Hsame : logSummary (buildPacket (0x00 :: cmd :: 0x10 :: rest))
                  = logSummary hex).
  { rewrite !logSummary_envelope, Hcmd.
    rewrite requestEnvelope_buildPacket by (assumption || (cbn [length]; lia)).
    reflexivity. }
  rewrite Hsame. split; [reflexivity|].
  rewrite logSummary_envelope, Hcmd.
  destruct Hcases
    as [[-> _] | [[-> _] | [[-> _] | [[-> _] | [-> _]]]]]; cbn; tauto.
Qed.

(** ** The script text *)

Lemma hexDigit_not_space (c : ascii) :
  JS.isHexDigit c = true -> Ascii.eqb c " " = false.
Proof.
  intros Hc. destruct (Ascii.eqb_spec c " ") as [-> | _]; [|reflexivity].
  discriminate Hc.
Qed.

Lemma splitSpace_bytesToHex (bytes : list Z) :
  Forall isByte bytes -> bytes <> [] ->
  splitSpace (bytesToHex bytes) = map byteToHex bytes.
Proof.
  induction 1 as [|b bytes Hb Hbytes IH]; [congruence|]. intros _.
  destruct (byteToHex_two_digits b Hb) as (c1 & c2 & Hhex & H1 & H2 & _).
  unfold bytesToHex in *. cbn [map String.concat].
  destruct bytes as [|b' bytes].
  - cbn [map]. rewrite Hhex. cbn [splitSpace].
    now rewrite (hexDigit_not_space c1 H1), (hexDigit_not_space c2 H2).
  - cbn [map] in *. rewrite Hhex.
    cbn [String.append splitSpace].
    rewrite (hexDigit_not_space c1 H1), (hexDigit_not_space c2 H2).
    change (Ascii.eqb " " " ") with true. cbv iota.
    rewrite IH by discriminate. reflexivity.
Qed.

(** X22: For the text of a non-empty byte sequence, the array literal of the
    generated scripts lists every byte as 0x and its two hex digits,
    separated by a comma and a space; for the empty text it is the lone
    prefix "0x". *)
Theorem formattedHexArray_bytesToHex (bytes : list Z) :
  Forall isByte bytes -> bytes <> [] ->
  formattedHexArray (bytesToHex bytes)
  = String.concat ", " (map (fun b => ("0x" ++ byteToHex b)%string) bytes)
  /\ formattedHexArray "" = "0x"%string.
Proof.
  intros Hbytes Hne. split; [|reflexivity].
  unfold formattedHexArray.
  rewrite (splitSpace_bytesToHex bytes Hbytes Hne).
  now rewrite map_map.
Qed.

Lemma formattedHexArray_bytesToHex_witness :
  formattedHexArray (bytesToHex [0xFE; 0x03; 0x00; 0x21; 0x02; 0x24; 0xFF])
  = String.concat ", "
      (map (fun b => ("0x" ++ byteToHex b)%string)
         [0xFE; 0x03; 0x00; 0x21; 0x02; 0x24; 0xFF])
  /\ formattedHexArray "" = "0x"%string.
Proof.
  apply (formattedHexArray_bytesToHex
           [0xFE; 0x03; 0x00; 0x21; 0x02; 0x24; 0xFF]).
  - repeat constructor; unfold isByte; lia.
  - discriminate.
Defined.

(** ** The enums *)

Lemma enumName_none (members : list (string * Z)) (code : Z) :
  enumName members code = None <-> ~ In code (map snd members).
Proof.
  induction members as [|[name v] members IH]; cbn [enumName map snd In].
  - tauto.
  - destruct (enumName members code) as [later|].
    + split; [discriminate|]. intros Hnot. exfalso.
      assert (Hin : In code (map snd members)).
      { destruct (in_dec Z.eq_dec code (map snd members)) as [H | H];
          [exact H|]. apply IH in H. discriminate H. }
      tauto.
    + destruct (Z.eqb_spec v code) as [-> | Hne].
      * split; [discriminate | tauto].
      * split; [|reflexivity]. intros _ [H | H]; [congruence|].
        now apply (proj1 IH).
Qed.

Lemma enumName_member (members : list (string * Z)) (name : string) (code : Z) :
  NoDup (map snd members) -> In (name, code) members ->
  enumName members code = Some name.
Proof.
  induction members as [|[name' v] members IH]; cbn [enumName map snd In];
    intros Hnodup Hin; [contradiction|].
  inversion Hnodup as [|? ? Hfresh Hrest]; subst.
  destruct Hin as [Heq | Hin].
  - injection Heq as -> ->.
    rewrite (proj2 (enumName_none members code) Hfresh).
    now rewrite Z.eqb_refl.
  - now rewrite (IH Hrest Hin).
Qed.

(** X23: The reverse lookup of an enum finds no name exactly for the codes that
    no member has; in both enums of the protocol no two members share a
    code, so every member's code gives that member's name back. *)
Theorem enumName_members :
  (forall members code,
     enumName members code = None <-> ~ In code (map snd members))
  /\ (forall name code, In (name, code) CommandCode.commandMembers ->
        enumName CommandCode.commandMembers code = Some name)
  /\ (forall name code, In (name, code) SubCommand.subMembers ->
        enumName SubCommand.subMembers code = Some name).
Proof.
  split; [exact enumName_none|]. split; intros name code Hin.
  - apply enumName_member; [|exact Hin].
    cbv [CommandCode.commandMembers map snd].
    repeat (constructor; [cbn; intuition discriminate|]). constructor.
  - apply enumName_member; [|exact Hin].
    cbv [SubCommand.subMembers map snd].
    repeat (constructor; [cbn; intuition discriminate|]). constructor.
Qed.

(** X24: Only the two ends of the sensor range 0x50-0x61 and of the threshold
    range 0x70-0x77 are members of the command enum: a code strictly
    inside either range has no name, and the decoder describes it as
    "Unknown Command". *)
Theorem commandEntry_inside_ranges (code : Z) :
  0x50 < code < 0x61 \/ 0x70 < code < 0x77 ->
  enumName CommandCode.commandMembers code = None
  /\ description (commandEntry code)
     = ("Unknown Command (0x" ++ JS.toString16 code ++ ")")%string.
Proof.
  intros Hrange.
  assert (Hnone : enumName CommandCode.commandMembers code = None).
  { apply enumName_none.
    cbv. lia. }
  split; [exact Hnone|].
  unfold commandEntry, enumNameOr. rewrite Hnone. cbn [description].
  assert (Hcases : In code [0x51; 0x52; 0x53; 0x54; 0x55; 0x56; 0x57; 0x58;
                            0x59; 0x5A; 0x5B; 0x5C; 0x5D; 0x5E; 0x5F; 0x60;
                            0x71; 0x72; 0x73; 0x74; 0x75; 0x76]).
  { cbn. lia. }
  cbn in Hcases.
  repeat (destruct Hcases as [<- | Hcases]; [reflexivity|]).
  contradiction.
Qed.

Lemma commandEntry_inside_ranges_witness :
  enumName CommandCode.commandMembers 0x55 = None
  /\ description (commandEntry 0x55)
     = ("Unknown Command (0x" ++ JS.toString16 0x55 ++ ")")%string.
Proof.
  apply (commandEntry_inside_ranges 0x55). lia.
Defined.

(** ** The loop of [unescapeData] *)

(** X25: The indexed loop of [unescapeData], started at index 0 with empty
    outputs, is finished after at most [data.length] iterations, and what
    it returns is the result of the scan. *)
Theorem unescapeLoop_terminates (fuel : nat) (data : list Z) :
  (length data <= fuel)%nat ->
  unescapeLoop fuel data 0 [] [] = unescapeData data.
Proof.
  intros Hfuel. rewrite unescapeLoop_scan by lia.
  cbn [skipn]. apply appendUnescaped_nil_l.
Qed.

Lemma unescapeLoop_terminates_witness :
  unescapeLoop 4 [0xFD; 0x02; 0x07; 0xFD] 0 [] []
  = unescapeData [0xFD; 0x02; 0x07; 0xFD].
Proof.
  apply (unescapeLoop_terminates 4 [0xFD; 0x02; 0x07; 0xFD]).
  simpl. lia.
Defined.
